(** * Qualtrics utility app: YAML editor, line-number gutter and
      configuration check

    A shallow embedding of the Python sources

      - [edit_1.py]        ([YAMLEditor] on a [QTextEdit]),
      - [edit_linenum.py]  ([CodeEditor] and [YAMLEditor] on it),
      - [main1.py]         ([CodeEditor], [EditorWindow], launcher),
      - [qualtrics_util.py] ([check_connection]),

    followed by the properties of these functions.

    Conventions.  Python [int] is [Z].  Python [str] is [string]; a
    character stands for a code point below 256.  The YAML libraries
    (ruamel.yaml for the editors, PyYAML for the configuration check), the
    file system, the dialogs, the Qt text widget and the console are
    outside the repository: they are the fields of the classes
    [YamlLibrary], [EditorHost], [SaveDialog], [ConfigHost], [TextWidget]
    and [Console], and every function that calls them takes them as
    parameters.  A call that may raise returns an [Outcome]; a function
    with effects is a computation in [Eff], which threads the state and
    records the dialogs, file accesses and prints in a trace. *)

From Stdlib Require Import ZArith List String Ascii Bool Lia.
From Stdlib Require Import Floats.SpecFloat.
From Stdlib Require Import Sorting.Sorted.
From Equations Require Import Equations.
Import ListNotations.

Set Warnings "-register-all".
Local Open Scope string_scope.

(* ===================================================================== *)
(** * Python values, strings and exceptions *)
(* ===================================================================== *)

(** The line feed of the f-strings. *)
Definition nl : string := String (ascii_of_nat 10) EmptyString.

(** [str.isspace] on one character, for code points below 256: the
    controls 9..13 and 28..31, the space, NEL (133) and NBSP (160). *)
Definition isspace (c : ascii) : bool :=
  let n := nat_of_ascii c in
  ((9 <=? n) && (n <=? 13) || (28 <=? n) && (n <=? 32)
   || (n =? 133) || (n =? 160))%nat.

Fixpoint string_rev (s : string) : string :=
  match s with
  | EmptyString => EmptyString
  | String c s' => string_rev s' ++ String c EmptyString
  end.

Fixpoint lstrip (s : string) : string :=
  match s with
  | EmptyString => EmptyString
  | String c s' => if isspace c then lstrip s' else s
  end.

Definition rstrip (s : string) : string := string_rev (lstrip (string_rev s)).

(** [s.strip()] *)
Definition strip (s : string) : string := rstrip (lstrip s).

(** Truth value of a [str]: the empty string is false. *)
Definition str_truthy (s : string) : bool :=
  match s with EmptyString => false | String _ _ => true end.

(** Truth value of [None]-or-[str], as [current_file_path] is. *)
Definition opt_str_truthy (o : option string) : bool :=
  match o with None => false | Some s => str_truthy s end.

(** [s.endswith(suffix)] for one suffix: the last [len(suffix)] characters
    of [s] are compared with [suffix]. *)
Definition endswith1 (s suffix : string) : bool :=
  (String.length suffix <=? String.length s)%nat
  && String.eqb
       (substring (String.length s - String.length suffix)
                  (String.length suffix) s)
       suffix.

(** [s.endswith((suf1, suf2, ...))] *)
Definition endswith (s : string) (suffixes : list string) : bool :=
  existsb (endswith1 s) suffixes.

(** [sub in s] for two strings. *)
Definition str_contains (sub s : string) : bool :=
  match index 0 sub s with Some _ => true | None => false end.

(** Exceptions, as far as the handlers of the sources tell them apart:
    [except YAMLError] catches the first kind only, [except Exception]
    both.  The string is [str(e)], which the f-strings print. *)
Inductive PyExc : Type :=
| YAMLError (msg : string)
| OtherException (cls msg : string).

Definition exc_str (e : PyExc) : string :=
  match e with
  | YAMLError msg => msg
  | OtherException _ msg => msg
  end.

Definition is_YAMLError (e : PyExc) : bool :=
  match e with YAMLError _ => true | OtherException _ _ => false end.

(** The result of a call: a value, or a raised exception. *)
Inductive Outcome (A : Type) : Type :=
| Ret (a : A)
| Raise (e : PyExc).
Arguments Ret {A} a.
Arguments Raise {A} e.

(* ===================================================================== *)
(** * [CodeEditor.lineNumberAreaWidth]  (edit_linenum.py, main1.py) *)
(* ===================================================================== *)

(** The loop
<<
        while count >= 10:
            count //= 10
            digits += 1
>>
    as a function of the two variables, returning the final [digits]. *)
Equations? digits_loop (count digits : Z) : Z by wf (Z.to_nat count) lt :=
  digits_loop count digits with Z_le_gt_dec 10 count => {
    | left _ := digits_loop (count / 10) (digits + 1);
    | right _ := digits }.
Proof.
  assert (count / 10 < count)%Z by (apply Z.div_lt; lia).
  assert (0 <= count / 10)%Z by (apply Z.div_pos; lia).
  lia.
Qed.

(** [lineNumberAreaWidth], with [self.blockCount()] and
    [self.fontMetrics().horizontalAdvance('9')] as arguments. *)
Definition lineNumberAreaWidth (horizontalAdvance9 blockCount : Z) : Z :=
  let digits := 1%Z in
  let count := Z.max 1 blockCount in
  let digits := digits_loop count digits in
  let space := (10 + horizontalAdvance9 * digits)%Z in
  space.

(* ===================================================================== *)
(** * Effects: widget state, dialogs, files, exceptions *)
(* ===================================================================== *)

(** What a function does to the outside, in program order. *)
Inductive Event : Type :=
| MsgInformation (title text : string)   (* QMessageBox.information *)
| MsgCritical (title text : string)      (* QMessageBox.critical *)
| SaveFileDialog                         (* QFileDialog.getSaveFileName *)
| SetPlainText (text : string)           (* text_edit.setText / setPlainText *)
| FileWrite (path text : string)         (* open(path, 'w') and write *)
| PathExists (path : string)             (* os.path.exists(path) *)
| FileOpenRead (path : string)           (* open(path, 'r') *)
| Print (text : string).                 (* print(text) *)

(** One finished call: how it ended, the state it left, what it did. *)
Record Run (St A : Type) : Type := mkRun {
  outcome : Outcome A;
  final : St;
  trace : list Event
}.
Arguments mkRun {St A}.
Arguments outcome {St A}.
Arguments final {St A}.
Arguments trace {St A}.

(** A computation on a state [St].  [None] is for a call that is cut off
    by the bound on the mutual calls of [save_file] and [save_file_as];
    everything else gives [Some] run. *)
Definition Eff (St A : Type) : Type := St -> option (Run St A).

Definition ret {St A} (a : A) : Eff St A :=
  fun s => Some (mkRun (Ret a) s []).

Definition raise {St A} (e : PyExc) : Eff St A :=
  fun s => Some (mkRun (Raise e) s []).

Definition bind {St A B} (m : Eff St A) (k : A -> Eff St B) : Eff St B :=
  fun s =>
    match m s with
    | None => None
    | Some (mkRun (Raise e) s1 t1) => Some (mkRun (Raise e) s1 t1)
    | Some (mkRun (Ret a) s1 t1) =>
        match k a s1 with
        | None => None
        | Some (mkRun o s2 t2) => Some (mkRun o s2 (t1 ++ t2))
        end
    end.

Declare Scope eff_scope.
Delimit Scope eff_scope with eff.
Notation "x <- m ;; k" := (bind m (fun x => k))
  (at level 61, m at next level, right associativity) : eff_scope.
Notation "m ;; k" := (bind m (fun _ => k))
  (at level 61, right associativity) : eff_scope.
Local Open Scope eff_scope.

Definition emit {St} (ev : Event) : Eff St unit :=
  fun s => Some (mkRun (Ret tt) s [ev]).

Definition get {St} : Eff St St :=
  fun s => Some (mkRun (Ret s) s []).

Definition put {St} (s' : St) : Eff St unit :=
  fun _ => Some (mkRun (Ret tt) s' []).

(** A library call: its outcome, no effect of its own. *)
Definition call {St A} (o : Outcome A) : Eff St A :=
  match o with Ret a => ret a | Raise e => raise e end.

(** One [except C as e: handler] clause. *)
Definition ExceptClause (St A : Type) : Type :=
  ((PyExc -> bool) * (PyExc -> Eff St A))%type.

Fixpoint find_clause {St A} (e : PyExc) (cs : list (ExceptClause St A))
  : option (PyExc -> Eff St A) :=
  match cs with
  | [] => None
  | (catches, handler) :: cs' =>
      if catches e then Some handler else find_clause e cs'
  end.

(** [try: body  except C1 as e: h1  except C2 as e: h2 ...]: the first
    clause whose class matches handles the exception; with none, the
    exception goes on to the caller. *)
Definition try_except {St A} (body : Eff St A)
           (clauses : list (ExceptClause St A)) : Eff St A :=
  fun s =>
    match body s with
    | None => None
    | Some (mkRun (Ret a) s1 t1) => Some (mkRun (Ret a) s1 t1)
    | Some (mkRun (Raise e) s1 t1) =>
        match find_clause e clauses with
        | None => Some (mkRun (Raise e) s1 t1)
        | Some handler =>
            match handler e s1 with
            | None => None
            | Some (mkRun o s2 t2) => Some (mkRun o s2 (t1 ++ t2))
            end
        end
    end.

(** [except Exception]: both kinds of [PyExc] are subclasses of
    [Exception] (interrupts and [SystemExit] are not modelled). *)
Definition is_Exception (e : PyExc) : bool := true.

(* ===================================================================== *)
(** * The round-trip YAML library of the editors (ruamel.yaml) *)
(* ===================================================================== *)

(** The keyword arguments of [yaml.indent(mapping=, sequence=, offset=)]. *)
Record FormatOptions : Type := mkFormatOptions {
  mapping : Z;
  sequence : Z;
  offset : Z
}.

(** [yaml = YAML(); yaml.indent(...)] gives an instance configured by
    [FormatOptions]; [yaml.load(text)] and [yaml.dump(data, stream)] with
    [stream.getvalue()] are its two methods. *)
Class YamlLibrary : Type := {
  Document : Type;
  yaml_load : FormatOptions -> string -> Outcome Document;
  yaml_dump : FormatOptions -> Document -> Outcome string
}.

(** What the editor's file writes can do: [open(path, 'w',
    encoding='utf-8')] followed by [file.write(text)] raises or not. *)
Class EditorHost : Type := {
  write_text : string -> string -> option PyExc
}.

(** The user's answer to the one save dialog a call can show: the chosen
    path, empty when the dialog is cancelled. *)
Class SaveDialog : Type := {
  getSaveFileName : string
}.

(** The text widget, [QTextEdit] in edit_1.py and [QPlainTextEdit]
    ([CodeEditor]) in edit_linenum.py and main1.py.  What the widget holds
    after it was given a text is Qt's affair: [QTextEdit.setText] takes a
    text that looks like HTML as rich text, and [toPlainText] gives a
    no-break space back as a space.  [plain_text_of text] is what
    [toPlainText()] returns after [setText(text)], for [QTextEdit], or
    after [setPlainText(text)], for [QPlainTextEdit]. *)
Class TextWidget : Type := {
  plain_text_of : string -> string
}.

(** The attributes of an editor window that the modelled methods use.
    [text_edit] is the plain text of the text widget, that is what
    [toPlainText()] returns: [toPlainText] reads it, and [setText] /
    [setPlainText] replace it by what the widget makes of the text it is
    given. *)
Record Editor : Type := mkEditor {
  text_edit : string;
  current_file_path : option string;
  windowTitle : string
}.

Definition toPlainText : Eff Editor string :=
  self <- get ;; ret (text_edit self).

Definition setPlainText `{Widget : TextWidget} (text : string)
  : Eff Editor unit :=
  emit (SetPlainText text) ;;
  self <- get ;;
  put (mkEditor (plain_text_of text) (current_file_path self)
         (windowTitle self)).

Definition set_current_file_path (p : option string) : Eff Editor unit :=
  self <- get ;;
  put (mkEditor (text_edit self) p (windowTitle self)).

Definition setWindowTitle (title : string) : Eff Editor unit :=
  self <- get ;;
  put (mkEditor (text_edit self) (current_file_path self) title).

(** [with open(path, 'w', encoding='utf-8') as file: file.write(text)] *)
Definition write_file `{Host : EditorHost} (path text : string)
  : Eff Editor unit :=
  emit (FileWrite path text) ;;
  match write_text path text with
  | None => ret tt
  | Some e => raise e
  end.

(** The path held by [current_file_path] when it is true. *)
Definition path_of (o : option string) : string :=
  match o with Some p => p | None => EmptyString end.

(* ===================================================================== *)
(** * [YAMLEditor]  (edit_1.py, edit_linenum.py) *)
(* ===================================================================== *)

Module YAMLEditor.
Section Methods.
Context `{Lib : YamlLibrary} `{Widget : TextWidget}.
Context `{Host : EditorHost} `{Dialog : SaveDialog}.

Definition show_error_message (title message : string) : Eff Editor unit :=
  emit (MsgCritical title message).

Definition show_info_message (title message : string) : Eff Editor unit :=
  emit (MsgInformation title message).

(** [save_file] and [save_file_as] call each other; [fuel] bounds the
    depth of these calls. *)
Fixpoint save_file (fuel : nat) : Eff Editor unit :=
  match fuel with
  | O => fun _ => None
  | S fuel' =>
      self <- get ;;
      if opt_str_truthy (current_file_path self) then
        try_except
          (text <- toPlainText ;;
           write_file (path_of (current_file_path self)) text)
          [ (is_Exception, fun e =>
               show_error_message "Error Saving File"
                 ("Could not save file:" ++ nl ++ exc_str e)) ]
      else
        save_file_as fuel'
  end
with save_file_as (fuel : nat) : Eff Editor unit :=
  match fuel with
  | O => fun _ => None
  | S fuel' =>
      emit SaveFileDialog ;;
      let file_path := getSaveFileName in
      if str_truthy file_path then
        let file_path :=
          if negb (endswith file_path [".yaml"; ".yml"])
          then file_path ++ ".yaml" else file_path in
        set_current_file_path (Some file_path) ;;
        save_file fuel' ;;
        self <- get ;;
        setWindowTitle ("YAML Editor - " ++ path_of (current_file_path self))
      else
        ret tt
  end.

Definition format_yaml : Eff Editor unit :=
  current_text <- toPlainText ;;
  if negb (str_truthy (strip current_text)) then
    show_info_message "Nothing to Format" "The editor is empty."
  else
    try_except
      (let yaml := mkFormatOptions 2 4 2 in
       data <- call (yaml_load yaml current_text) ;;
       formatted_text <- call (yaml_dump yaml data) ;;
       setPlainText formatted_text)
      [ (is_YAMLError, fun e =>
           show_error_message "YAML Formatting Error"
             ("Could not parse YAML. Please check your syntax."
              ++ nl ++ nl ++ "Error: " ++ exc_str e)) ].

End Methods.
End YAMLEditor.

(* ===================================================================== *)
(** * [EditorWindow]  (main1.py) *)
(* ===================================================================== *)

Module EditorWindow.
Section Methods.
Context `{Lib : YamlLibrary} `{Widget : TextWidget}.
Context `{Host : EditorHost} `{Dialog : SaveDialog}.

Definition show_error_message (title message : string) : Eff Editor unit :=
  emit (MsgCritical title message).

Fixpoint save_file (fuel : nat) : Eff Editor unit :=
  match fuel with
  | O => fun _ => None
  | S fuel' =>
      self <- get ;;
      if opt_str_truthy (current_file_path self) then
        try_except
          (text <- toPlainText ;;
           write_file (path_of (current_file_path self)) text)
          [ (is_Exception, fun e =>
               show_error_message "Error Saving File"
                 ("Could not save file:" ++ nl ++ exc_str e)) ]
      else
        save_file_as fuel'
  end
with save_file_as (fuel : nat) : Eff Editor unit :=
  match fuel with
  | O => fun _ => None
  | S fuel' =>
      emit SaveFileDialog ;;
      let file_path := getSaveFileName in
      if str_truthy file_path then
        let file_path :=
          if negb (endswith file_path [".yaml"; ".yml"])
          then file_path ++ ".yaml" else file_path in
        set_current_file_path (Some file_path) ;;
        save_file fuel' ;;
        self <- get ;;
        setWindowTitle ("Editor - " ++ path_of (current_file_path self))
      else
        ret tt
  end.

Definition format_yaml : Eff Editor unit :=
  current_text <- toPlainText ;;
  if negb (str_truthy (strip current_text)) then
    ret tt
  else
    try_except
      (let yaml := mkFormatOptions 2 4 2 in
       data <- call (yaml_load yaml current_text) ;;
       formatted_text <- call (yaml_dump yaml data) ;;
       setPlainText formatted_text)
      [ (is_YAMLError, fun e =>
           show_error_message "YAML Formatting Error"
             ("Could not parse YAML." ++ nl ++ "Error: " ++ exc_str e)) ].

End Methods.
End EditorWindow.

(* ===================================================================== *)
(** * [check_connection]  (qualtrics_util.py) *)
(* ===================================================================== *)

(** The values [yaml.safe_load] can build. *)
Inductive PyVal : Type :=
| PyNone
| PyBool (b : bool)
| PyInt (z : Z)
| PyFloat (f : spec_float)
| PyStr (s : string)
| PyBytes (b : list ascii)
| PyDate (iso : string)                  (* datetime.date *)
| PyDateTime (iso : string)              (* datetime.datetime *)
| PyList (items : list PyVal)
| PyTuple (items : list PyVal)
| PySet (items : list PyVal)
| PyDict (items : list (PyVal * PyVal)).

(** [bool(v)], as [not v] uses it. *)
Definition truthy (v : PyVal) : bool :=
  match v with
  | PyNone => false
  | PyBool b => b
  | PyInt z => negb (z =? 0)%Z
  | PyFloat (S754_zero _) => false
  | PyFloat _ => true
  | PyStr s => str_truthy s
  | PyBytes [] => false
  | PyBytes _ => true
  | PyDate _ | PyDateTime _ => true
  | PyList [] | PyTuple [] | PySet [] | PyDict [] => false
  | PyList _ | PyTuple _ | PySet _ | PyDict _ => true
  end.

(** The name of the type of [v] as the [TypeError] of [in] prints it. *)
Definition type_name (v : PyVal) : string :=
  match v with
  | PyNone => "NoneType"
  | PyBool _ => "bool"
  | PyInt _ => "int"
  | PyFloat _ => "float"
  | PyStr _ => "str"
  | PyBytes _ => "bytes"
  | PyDate _ => "datetime.date"
  | PyDateTime _ => "datetime.datetime"
  | PyList _ => "list"
  | PyTuple _ => "tuple"
  | PySet _ => "set"
  | PyDict _ => "dict"
  end.

(** [v == key] for a [str] key: only an equal [str] is equal. *)
Definition eq_str (key : string) (v : PyVal) : bool :=
  match v with
  | PyStr s => String.eqb s key
  | _ => false
  end.

(** [key in v] for a [str] key: membership in a container, substring of a
    [str], [TypeError] on anything else. *)
Definition py_in (key : string) (v : PyVal) : Outcome bool :=
  match v with
  | PyDict items => Ret (existsb (fun kv => eq_str key (fst kv)) items)
  | PyList items | PyTuple items | PySet items =>
      Ret (existsb (eq_str key) items)
  | PyStr s => Ret (str_contains key s)
  | PyBytes _ =>
      Raise (OtherException "TypeError"
               "a bytes-like object is required, not 'str'")
  | _ =>
      Raise (OtherException "TypeError"
               ("argument of type '" ++ type_name v ++ "' is not iterable"))
  end.

(** What [check_connection] calls: [os.path.exists], [open(path, 'r')]
    giving a stream, and [yaml.safe_load] on that stream (PyYAML). *)
Class ConfigHost : Type := {
  Stream : Type;
  os_path_exists : string -> bool;
  open_r : string -> Outcome Stream;
  safe_load : Stream -> Outcome PyVal
}.

Definition msg_token_not_found : string :=
  "Qualtrics token file not found or path is not set.".
Definition msg_config_not_found : string :=
  "Project config file not found or path is not set.".
Definition qualtrics_token_name : string := "QUALTRICS_APITOKEN".
Definition msg_token_key_missing : string :=
  "YAML is valid, but " ++ qualtrics_token_name
  ++ " key is missing in the token file.".
Definition msg_config_key_missing : string :=
  "YAML is valid, but 'project_id' key is missing in the config file.".
Definition msg_success : string :=
  "Successfully connected to Qualtrics and validated configuration.".

(** [print(text)] writes to [sys.stdout], and the write can fail: a
    stream that is closed or broken, a path the stream's encoding cannot
    write.  The four texts [check_connection] prints differ from one
    another, so an outcome for each text covers whatever the stream does
    during one call. *)
Class Console : Type := {
  print_outcome : string -> Outcome unit
}.
Definition msg_parse_error (e : PyExc) : string :=
  "Failed to parse a YAML file. Please check its syntax." ++ nl
  ++ "Error: " ++ exc_str e.
Definition msg_unexpected (e : PyExc) : string :=
  "An unexpected error occurred: " ++ exc_str e.

Section CheckConnection.
Context `{Host : ConfigHost} `{Out : Console}.

(** [print(text)] *)
Definition print (text : string) : Eff unit unit :=
  emit (Print text) ;; call (print_outcome text).

(** [not path or not os.path.exists(path)]: [os.path.exists] is called
    only on a non-empty path. *)
Definition path_missing (path : string) : Eff unit bool :=
  if negb (str_truthy path) then ret true
  else emit (PathExists path) ;; ret (negb (os_path_exists path)).

(** [with open(path, 'r') as f: data = yaml.safe_load(f)] *)
Definition load_file (path : string) : Eff unit PyVal :=
  emit (FileOpenRead path) ;;
  f <- call (open_r path) ;;
  call (safe_load f).

(** [not data or key not in data] *)
Definition key_missing (key : string) (data : PyVal) : Eff unit bool :=
  if negb (truthy data) then ret true
  else found <- call (py_in key data) ;; ret (negb found).

Definition check_connection (token_file_path config_file_path : string)
  : Eff unit (bool * string) :=
  missing <- path_missing token_file_path ;;
  if missing then ret (false, msg_token_not_found) else
  missing <- path_missing config_file_path ;;
  if missing then ret (false, msg_config_not_found) else
  try_except
    (print ("Attempting to read token from: " ++ token_file_path) ;;
     token_data <- load_file token_file_path ;;
     missing <- key_missing qualtrics_token_name token_data ;;
     if missing then ret (false, msg_token_key_missing) else
     print ("Attempting to read config from: " ++ config_file_path) ;;
     config_data <- load_file config_file_path ;;
     missing <- key_missing "project_id" config_data ;;
     if missing then ret (false, msg_config_key_missing) else
     print "--- Simulation: Pretending to make an API call... ---" ;;
     print "Successfully connected to Qualtrics API." ;;
     ret (true, msg_success))
    [ (is_YAMLError, fun e => ret (false, msg_parse_error e));
      (is_Exception, fun e => ret (false, msg_unexpected e)) ].

End CheckConnection.

(* ===================================================================== *)
(** * Reading a run of [format_yaml] as the specification's result *)
(* ===================================================================== *)

(** The three results the specification names, and the case it does not:
    an exception that leaves [format_yaml]. *)
Inductive FormatResult : Type :=
| NothingToFormat
| Formatted (text : string)
| ParseFailed (message : string)
| Uncaught (e : PyExc).

(** The first buffer write or error dialog of a trace decides. *)
Fixpoint result_of_trace (t : list Event) : FormatResult :=
  match t with
  | [] => NothingToFormat
  | SetPlainText text :: _ => Formatted text
  | MsgCritical _ message :: _ => ParseFailed message
  | _ :: t' => result_of_trace t'
  end.

Definition format_result {A} (r : Run Editor A) : FormatResult :=
  match outcome r with
  | Raise e => Uncaught e
  | Ret _ => result_of_trace (trace r)
  end.

(** The text is empty or has white space only. *)
Fixpoint all_space (s : string) : bool :=
  match s with
  | EmptyString => true
  | String c s' => isspace c && all_space s'
  end.

(** [d] is the number of decimal digits of [m >= 1]:
    [d = floor (log10 m) + 1]. *)
Definition decimal_digits (m d : Z) : Prop :=
  (1 <= d /\ 10 ^ (d - 1) <= m < 10 ^ d)%Z.

(* ===================================================================== *)
(** * The vocabulary of the statements *)
(* ===================================================================== *)

Section SaveVocabulary.
Context `{Host : EditorHost}.

(** The path [save_file_as] stores for the chosen path [p]. *)
Definition saved_path (p : string) : string :=
  if endswith p [".yaml"; ".yml"] then p else p ++ ".yaml".

(** The error dialog of [save_file], shown when the write raises. *)
Definition save_error_dialog (path text : string) : list Event :=
  match write_text path text with
  | None => []
  | Some e => [MsgCritical "Error Saving File"
                 ("Could not save file:" ++ nl ++ exc_str e)]
  end.
End SaveVocabulary.

Section FormatVocabulary.
Context `{Lib : YamlLibrary}.

(** The options every call of the library gets. *)
Definition options : FormatOptions := mkFormatOptions 2 4 2.

(** The library's part of [format_yaml]: load, then dump what was
    loaded. *)
Definition round_trip (text : string) : Outcome string :=
  match yaml_load options text with
  | Ret data => yaml_dump options data
  | Raise e => Raise e
  end.

Definition error_text_YAMLEditor (e : PyExc) : string :=
  "Could not parse YAML. Please check your syntax." ++ nl ++ nl
  ++ "Error: " ++ exc_str e.

Definition error_text_EditorWindow (e : PyExc) : string :=
  "Could not parse YAML." ++ nl ++ "Error: " ++ exc_str e.
End FormatVocabulary.

Section ValidateVocabulary.
Context `{Host : ConfigHost} `{Out : Console}.

(** The path is empty, or names nothing that exists. *)
Definition path_unset_or_absent (path : string) : bool :=
  negb (str_truthy path) || negb (os_path_exists path).

(** Opening the file and loading its YAML, as one outcome. *)
Definition load_outcome (path : string) : Outcome PyVal :=
  match open_r path with
  | Ret f => safe_load f
  | Raise e => Raise e
  end.

(** The loaded data is false or does not have the key; [in] may raise. *)
Definition lacks_key (key : string) (data : PyVal) : Outcome bool :=
  if negb (truthy data) then Ret true
  else match py_in key data with
       | Ret found => Ret (negb found)
       | Raise e => Raise e
       end.

(** The result for an exception: parse error for a [YAMLError],
    unexpected error for anything else. *)
Definition failure (e : PyExc) : bool * string :=
  if is_YAMLError e then (false, msg_parse_error e)
  else (false, msg_unexpected e).

(** One file of the classification: load it, look for its key, and go on
    to [next] when it passes. *)
Definition validate_file (path key missing_message : string)
           (next : bool * string) : bool * string :=
  match load_outcome path with
  | Raise e => failure e
  | Ret data =>
      match lacks_key key data with
      | Raise e => failure e
      | Ret true => (false, missing_message)
      | Ret false => next
      end
  end.

(** The texts [check_connection] prints, in order: before the token
    file, before the config file, and the two at the end. *)
Definition token_notice_text (tok : string) : string :=
  "Attempting to read token from: " ++ tok.
Definition config_notice_text (cfg : string) : string :=
  "Attempting to read config from: " ++ cfg.
Definition simulation_notice_text : string :=
  "--- Simulation: Pretending to make an API call... ---".
Definition connected_notice_text : string :=
  "Successfully connected to Qualtrics API.".

Definition notices (tok cfg : string) : list string :=
  [token_notice_text tok; config_notice_text cfg;
   simulation_notice_text; connected_notice_text].

(** Every one of the four prints returns. *)
Definition prints_return (tok cfg : string) : Prop :=
  forall text, In text (notices tok cfg) -> print_outcome text = Ret tt.

(** One print of the classification: a print that raises is a failure
    like any other, and [next] is reached when it returns. *)
Definition after_print (text : string) (next : bool * string)
  : bool * string :=
  match print_outcome text with
  | Raise e => failure e
  | Ret _ => next
  end.

(** The trace of one print: the call, and [next] when it returns. *)
Definition print_trace (text : string) (next : list Event) : list Event :=
  Print text
  :: match print_outcome text with
     | Ret _ => next
     | Raise _ => []
     end.

(** The classification of a pair of paths, as a decision list: the two
    paths, then the token file, then the config file, each file after
    the print that announces it, and the two prints at the end. *)
Definition validate (token_file_path config_file_path : string)
  : bool * string :=
  if path_unset_or_absent token_file_path then (false, msg_token_not_found)
  else if path_unset_or_absent config_file_path
  then (false, msg_config_not_found)
  else
    after_print (token_notice_text token_file_path)
      (validate_file token_file_path qualtrics_token_name
         msg_token_key_missing
         (after_print (config_notice_text config_file_path)
            (validate_file config_file_path "project_id"
               msg_config_key_missing
               (after_print simulation_notice_text
                  (after_print connected_notice_text
                     (true, msg_success)))))).

(** The existence test [check_connection] makes for a path: none for the
    empty path. *)
Definition probes (path : string) : list Event :=
  if str_truthy path then [PathExists path] else [].

(** The first [print] of [check_connection]. *)
Definition token_notice (tok : string) : Event :=
  Print (token_notice_text tok).

End ValidateVocabulary.

(* ===================================================================== *)
(** * Sample hosts, for the examples *)
(* ===================================================================== *)

(** A library stand-in for the examples.  It knows two failing buffers,
    the specification's unclosed flow sequence (a parser error, which is a
    [YAMLError]) and an integer tag on a word (the constructor's [int()]
    raises [ValueError]); any other text loads and dumps as itself. *)
Definition sample_load (text : string) : Outcome string :=
  if String.eqb text "key: [unclosed" then
    Raise (YAMLError "while parsing a flow sequence, expected ',' or ']'")
  else if String.eqb text "!!int abc" then
    Raise (OtherException "ValueError"
             "invalid literal for int() with base 10: 'abc'")
  else Ret text.

#[local] Instance sample_yaml : YamlLibrary := {
  Document := string;
  yaml_load := fun _ text => sample_load text;
  yaml_dump := fun _ doc => Ret doc
}.

(** A widget that holds every text as it is given. *)
Definition sample_widget : TextWidget := {|
  plain_text_of := fun text => text
|}.

(** A widget that keeps line feeds only: carriage returns are dropped. *)
Fixpoint drop_cr (text : string) : string :=
  match text with
  | EmptyString => EmptyString
  | String c rest =>
      if Ascii.eqb c "013"%char then drop_cr rest
      else String c (drop_cr rest)
  end.

Definition line_widget : TextWidget := {|
  plain_text_of := drop_cr
|}.

(** Every write succeeds. *)
#[local] Instance sample_disk : EditorHost := {
  write_text := fun _ _ => None
}.

(** The user types [notes] in the save dialog. *)
#[local] Instance sample_dialog : SaveDialog := {
  getSaveFileName := "notes"
}.

(** Five files, by content, and what the loader makes of each. *)
Definition sample_files : list (string * string) :=
  [ ("token.yaml", "QUALTRICS_APITOKEN: abc");
    ("config.yaml", "project_id: SV_1");
    ("nokey.yaml", "other: 1");
    ("broken.yaml", "key: [unclosed");
    ("number.yaml", "5") ].

Fixpoint lookup (k : string) (l : list (string * string)) : option string :=
  match l with
  | [] => None
  | (k', v) :: l' => if String.eqb k k' then Some v else lookup k l'
  end.

Definition sample_safe_load (content : string) : Outcome PyVal :=
  if String.eqb content "QUALTRICS_APITOKEN: abc" then
    Ret (PyDict [(PyStr "QUALTRICS_APITOKEN", PyStr "abc")])
  else if String.eqb content "project_id: SV_1" then
    Ret (PyDict [(PyStr "project_id", PyStr "SV_1")])
  else if String.eqb content "other: 1" then
    Ret (PyDict [(PyStr "other", PyInt 1)])
  else if String.eqb content "5" then
    Ret (PyInt 5)
  else
    Raise (YAMLError "while parsing a flow sequence, expected ',' or ']'").

#[local] Instance sample_config_host : ConfigHost := {
  Stream := string;
  os_path_exists := fun p =>
    match lookup p sample_files with Some _ => true | None => false end;
  open_r := fun p =>
    match lookup p sample_files with
    | Some content => Ret content
    | None => Raise (OtherException "FileNotFoundError"
                       "[Errno 2] No such file or directory")
    end;
  safe_load := sample_safe_load
}.

(** A console that takes every text, and one whose stream is closed. *)
Definition sample_console : Console := {|
  print_outcome := fun _ => Ret tt
|}.

Definition closed_console : Console := {|
  print_outcome := fun _ =>
    Raise (OtherException "ValueError" "I/O operation on closed file.")
|}.

(* ===================================================================== *)
(** * Effects of the file menu and of the launcher *)
(* ===================================================================== *)

(** The events of [Event], and the three more that [new_file],
    [open_file] and the launcher make. *)
Inductive GuiEvent : Type :=
| Core (ev : Event)
| OpenFileDialog (caption : string)      (* QFileDialog.getOpenFileName *)
| TextCleared                            (* text_edit.clear() *)
| MsgWarning (title text : string).      (* QMessageBox.warning *)

Record GuiRun (St A : Type) : Type := mkGuiRun {
  gui_outcome : Outcome A;
  gui_final : St;
  gui_trace : list GuiEvent
}.
Arguments mkGuiRun {St A}.
Arguments gui_outcome {St A}.
Arguments gui_final {St A}.
Arguments gui_trace {St A}.

(** As [Eff], over [GuiEvent]. *)
Definition Gui (St A : Type) : Type := St -> option (GuiRun St A).

Definition gui_ret {St A} (a : A) : Gui St A :=
  fun s => Some (mkGuiRun (Ret a) s []).

Definition gui_bind {St A B} (m : Gui St A) (k : A -> Gui St B) : Gui St B :=
  fun s =>
    match m s with
    | None => None
    | Some (mkGuiRun (Raise e) s1 t1) => Some (mkGuiRun (Raise e) s1 t1)
    | Some (mkGuiRun (Ret a) s1 t1) =>
        match k a s1 with
        | None => None
        | Some (mkGuiRun o s2 t2) => Some (mkGuiRun o s2 (t1 ++ t2))
        end
    end.

Declare Scope gui_scope.
Delimit Scope gui_scope with gui.
Notation "x <- m ;; k" := (gui_bind m (fun x => k))
  (at level 61, m at next level, right associativity) : gui_scope.
Notation "m ;; k" := (gui_bind m (fun _ => k))
  (at level 61, right associativity) : gui_scope.

Definition gui_emit {St} (ev : GuiEvent) : Gui St unit :=
  fun s => Some (mkGuiRun (Ret tt) s [ev]).

Definition gui_get {St} : Gui St St :=
  fun s => Some (mkGuiRun (Ret s) s []).

Definition gui_put {St} (s' : St) : Gui St unit :=
  fun _ => Some (mkGuiRun (Ret tt) s' []).

Definition gui_call {St A} (o : Outcome A) : Gui St A :=
  fun s => Some (mkGuiRun o s []).

(** A computation of [Eff], run as it is. *)
Definition core {St A} (m : Eff St A) : Gui St A :=
  fun s =>
    match m s with
    | None => None
    | Some r => Some (mkGuiRun (outcome r) (final r) (map Core (trace r)))
    end.

(** A computation on another object, started in the state [s']: its
    result comes with the state it leaves; the caller's state is not
    touched. *)
Definition run_on {St St' A} (s' : St') (m : Gui St' A) : Gui St (A * St') :=
  fun s =>
    match m s' with
    | None => None
    | Some (mkGuiRun (Ret a) s1 t) => Some (mkGuiRun (Ret (a, s1)) s t)
    | Some (mkGuiRun (Raise e) _ t) => Some (mkGuiRun (Raise e) s t)
    end.

(** [try: body  except Exception as e: handler] *)
Definition gui_try_except {St A} (body : Gui St A)
           (handler : PyExc -> Gui St A) : Gui St A :=
  fun s =>
    match body s with
    | None => None
    | Some (mkGuiRun (Ret a) s1 t1) => Some (mkGuiRun (Ret a) s1 t1)
    | Some (mkGuiRun (Raise e) s1 t1) =>
        match handler e s1 with
        | None => None
        | Some (mkGuiRun o s2 t2) => Some (mkGuiRun o s2 (t1 ++ t2))
        end
    end.

(** The user's answer to the one open dialog a call can show: the chosen
    path, empty when the dialog is cancelled. *)
Class OpenDialog : Type := {
  getOpenFileName : string
}.

(** [with open(path, 'r', encoding='utf-8') as file: file.read()], as one
    outcome. *)
Class ReadHost : Type := {
  read_text : string -> Outcome string
}.

Definition read_file `{Disk : ReadHost} {St} (path : string) : Gui St string :=
  (gui_emit (Core (FileOpenRead path)) ;;
   gui_call (read_text path))%gui.

(** [self.text_edit.clear()] *)
Definition clear : Gui Editor unit :=
  (gui_emit TextCleared ;;
   self <- gui_get ;;
   gui_put (mkEditor EmptyString (current_file_path self)
              (windowTitle self)))%gui.

(* ===================================================================== *)
(** * [YAMLEditor.new_file], [YAMLEditor.open_file]
      (edit_1.py, edit_linenum.py) *)
(* ===================================================================== *)

Module YAMLEditorFile.
Section Methods.
Context `{Dialog : OpenDialog} `{Disk : ReadHost} `{Widget : TextWidget}.
Local Open Scope gui_scope.

Definition new_file : Gui Editor unit :=
  clear ;;
  core (set_current_file_path None) ;;
  core (setWindowTitle "YAML Editor - New File").

Definition open_file : Gui Editor unit :=
  gui_emit (OpenFileDialog "Open YAML File") ;;
  let file_path := getOpenFileName in
  if str_truthy file_path then
    gui_try_except
      (content <- read_file file_path ;;
       core (setPlainText content) ;;
       core (set_current_file_path (Some file_path)) ;;
       self <- gui_get ;;
       core (setWindowTitle
               ("YAML Editor - " ++ path_of (current_file_path self))))
      (fun e =>
         core (YAMLEditor.show_error_message "Error Opening File"
                 ("Could not read file:" ++ nl ++ exc_str e)))
  else
    gui_ret tt.

End Methods.
End YAMLEditorFile.

(* ===================================================================== *)
(** * [EditorWindow.__init__], [new_file], [open_file]  (main1.py) *)
(* ===================================================================== *)

Module EditorWindowFile.
Section Methods.
Context `{Dialog : OpenDialog} `{Disk : ReadHost} `{Widget : TextWidget}.
Local Open Scope gui_scope.

Definition new_file : Gui Editor unit :=
  clear ;;
  core (set_current_file_path None) ;;
  core (setWindowTitle "YAML Editor - New File").

(** [open_file(self, file_path=None)]: [None] is the default. *)
Definition open_file (file_path : option string) : Gui Editor unit :=
  file_path <-
    (if negb (opt_str_truthy file_path) then
       gui_emit (OpenFileDialog "Open YAML File") ;;
       gui_ret getOpenFileName
     else gui_ret (path_of file_path)) ;;
  if str_truthy file_path then
    gui_try_except
      (content <- read_file file_path ;;
       core (setPlainText content) ;;
       core (set_current_file_path (Some file_path)) ;;
       self <- gui_get ;;
       core (setWindowTitle
               ("Editor - " ++ path_of (current_file_path self))))
      (fun e =>
         core (EditorWindow.show_error_message "Error Opening File"
                 ("Could not read file:" ++ nl ++ exc_str e)))
  else
    gui_ret tt.

(** The window as [__init__] has it before a file is opened: no path,
    the title of [init_ui], an empty text widget. *)
Definition blank_window : Editor :=
  mkEditor EmptyString None "YAML Editor".

(** [EditorWindow(file_path)], as a computation on the new window. *)
Definition init (file_path : option string) : Gui Editor unit :=
  gui_put blank_window ;;
  if opt_str_truthy file_path then open_file file_path else gui_ret tt.

End Methods.
End EditorWindowFile.

(* ===================================================================== *)
(** * [LauncherWindow]  (main1.py) *)
(* ===================================================================== *)

(** [QSettings]: [settings.value(key, default)] and
    [settings.setValue(key, value)] on a store of strings. *)
Class SettingsStore : Type := {
  Settings : Type;
  value : Settings -> string -> string -> string;
  setValue : Settings -> string -> string -> Settings
}.

(** The attributes of the launcher that its methods use: the two
    read-only line edits with their Edit buttons, the list that keeps the
    editor windows alive (each window as it was created), the settings. *)
Record Launcher `{Store : SettingsStore} : Type := mkLauncher {
  token_file_path_edit : string;
  edit_token_btn : bool;
  project_config_path_edit : string;
  edit_project_btn : bool;
  editor_windows : list Editor;
  settings : Settings
}.
Arguments mkLauncher {Store}.

Module LauncherWindow.
Section Methods.
Context `{Store : SettingsStore} `{Disk : ReadHost} `{Files : ConfigHost}.
Context `{Widget : TextWidget} `{Out : Console}.
Local Open Scope gui_scope.

(** [self.token_file_path_edit.setText(path)] followed by
    [self.edit_token_btn.setEnabled(True)] *)
Definition set_token_file (path : string) : Gui Launcher unit :=
  self <- gui_get ;;
  gui_put (mkLauncher path true (project_config_path_edit self)
             (edit_project_btn self) (editor_windows self) (settings self)).

(** [self.project_config_path_edit.setText(path)] followed by
    [self.edit_project_btn.setEnabled(True)] *)
Definition set_project_file (path : string) : Gui Launcher unit :=
  self <- gui_get ;;
  gui_put (mkLauncher (token_file_path_edit self) (edit_token_btn self)
             path true (editor_windows self) (settings self)).

(** [self.settings.setValue(key, v)] *)
Definition settings_setValue (key v : string) : Gui Launcher unit :=
  self <- gui_get ;;
  gui_put (mkLauncher (token_file_path_edit self) (edit_token_btn self)
             (project_config_path_edit self) (edit_project_btn self)
             (editor_windows self) (setValue (settings self) key v)).

(** [self.editor_windows.append(editor)] *)
Definition editor_windows_append (editor : Editor) : Gui Launcher unit :=
  self <- gui_get ;;
  gui_put (mkLauncher (token_file_path_edit self) (edit_token_btn self)
             (project_config_path_edit self) (edit_project_btn self)
             (editor_windows self ++ [editor]) (settings self)).

Definition load_settings : Gui Launcher unit :=
  self <- gui_get ;;
  let token_path := value (settings self) "qualtrics_token_path" EmptyString in
  (if str_truthy token_path then set_token_file token_path
   else gui_ret tt) ;;
  self <- gui_get ;;
  let project_path := value (settings self) "project_config_path" EmptyString in
  if str_truthy project_path then set_project_file project_path
  else gui_ret tt.

Definition save_settings : Gui Launcher unit :=
  self <- gui_get ;;
  settings_setValue "qualtrics_token_path" (token_file_path_edit self) ;;
  self <- gui_get ;;
  settings_setValue "project_config_path" (project_config_path_edit self).

(** The launcher as [__init__] has it after [init_ui]: empty line edits,
    Edit buttons disabled, no editor window, the settings of the
    application. *)
Definition fresh (store : Settings) : Launcher :=
  mkLauncher EmptyString false EmptyString false [] store.

(** [LauncherWindow()], on the settings [store] of the application. *)
Definition init (store : Settings) : Gui Launcher unit :=
  gui_put (fresh store) ;;
  load_settings.

Definition browse_token_file `{Dialog : OpenDialog} : Gui Launcher unit :=
  gui_emit (OpenFileDialog "Select Token File") ;;
  let path := getOpenFileName in
  if str_truthy path then
    set_token_file path ;;
    save_settings
  else gui_ret tt.

Definition browse_project_file `{Dialog : OpenDialog} : Gui Launcher unit :=
  gui_emit (OpenFileDialog "Select Project Config File") ;;
  let path := getOpenFileName in
  if str_truthy path then
    set_project_file path ;;
    save_settings
  else gui_ret tt.

(** The dialog of [EditorWindow.open_file] is not reached from here: the
    window is built with a path that is true. *)
Definition open_editor_for_path `{Dialog : OpenDialog} (path : string)
  : Gui Launcher unit :=
  if negb (str_truthy path) then
    gui_emit (MsgWarning "No File" "Please select a file first.")
  else
    created <- run_on EditorWindowFile.blank_window
                 (EditorWindowFile.init (Some path)) ;;
    let editor := snd created in
    editor_windows_append editor.

Definition edit_token_file `{Dialog : OpenDialog} : Gui Launcher unit :=
  self <- gui_get ;;
  open_editor_for_path (token_file_path_edit self).

Definition edit_project_file `{Dialog : OpenDialog} : Gui Launcher unit :=
  self <- gui_get ;;
  open_editor_for_path (project_config_path_edit self).

Definition run_check_connection : Gui Launcher unit :=
  self <- gui_get ;;
  let token_path := token_file_path_edit self in
  let config_path := project_config_path_edit self in
  checked <- run_on tt (core (check_connection token_path config_path)) ;;
  let (success, message) := fst checked in
  if success then
    gui_emit (Core (MsgInformation "Connection Success" message))
  else
    gui_emit (MsgWarning "Connection Failed" message).

Definition closeEvent : Gui Launcher unit :=
  save_settings.

End Methods.
End LauncherWindow.

(* ===================================================================== *)
(** * [CodeEditor.lineNumberAreaPaintEvent]  (edit_linenum.py, main1.py) *)
(* ===================================================================== *)

(** The coordinates of the text layout are Qt's floating-point numbers.
    Only these operations on them are used: [top + height],
    [top <= rect.bottom()], [bottom >= rect.top()] and [int(top)].  They
    are taken as they come, with no law assumed. *)
Class Geometry : Type := {
  Coord : Type;
  coord_add : Coord -> Coord -> Coord;
  coord_le_int : Coord -> Z -> bool;
  coord_ge_int : Coord -> Z -> bool;
  coord_int : Coord -> Z
}.

(** A valid [QTextBlock]: [block.isVisible()] and
    [blockBoundingRect(block).height()]. *)
Record Block `{Geo : Geometry} : Type := mkBlock {
  isVisible : bool;
  boundingHeight : Coord
}.
Arguments mkBlock {Geo}.

(** [event.rect()], of which [top()] and [bottom()] are used. *)
Record QRect : Type := mkQRect {
  rect_top : Z;
  rect_bottom : Z
}.

(** The calls on the painter; the text drawn is [str(number)]. *)
Inductive PaintOp : Type :=
| FillRect (rect : QRect) (color : string)
| SetPen (color : string)
| DrawText (x y w h : Z) (flags : string) (number : Z).

Module CodeEditor.
Section PaintEvent.
Context `{Geo : Geometry}.

(** [self.lineNumberArea.width()], [self.fontMetrics().height()] and the
    height Qt gives for the block that is not valid. *)
Variables (lineNumberArea_width fontMetrics_height : Z).
Variable invalid_height : Coord.

(** [blockBoundingRect(block).height()], where [blocks] is [block] with
    the blocks after it and the empty list is the block that is not
    valid. *)
Definition blockBoundingRect_height (blocks : list Block) : Coord :=
  match blocks with
  | [] => invalid_height
  | block :: _ => boundingHeight block
  end.

(** The [while] loop; [block.next()] is the tail of the list. *)
Fixpoint paint_blocks (rect : QRect) (blocks : list Block)
         (blockNumber : Z) (top bottom : Coord) : list PaintOp :=
  match blocks with
  | [] => []
  | block :: next =>
      if coord_le_int top (rect_bottom rect) then
        (if isVisible block && coord_ge_int bottom (rect_top rect) then
           let number := (blockNumber + 1)%Z in
           [SetPen "darkGray";
            DrawText 0 (coord_int top) (lineNumberArea_width - 5)
              fontMetrics_height "AlignRight" number]
         else [])
        ++ (let top := bottom in
            let bottom := coord_add top (blockBoundingRect_height next) in
            paint_blocks rect next (blockNumber + 1) top bottom)
      else []
  end.

(** [lineNumberAreaPaintEvent(event)]: [blocks] is
    [self.firstVisibleBlock()] with the blocks after it, [blockNumber] its
    [blockNumber()], [top] the top of its geometry moved by the content
    offset. *)
Definition lineNumberAreaPaintEvent (rect : QRect) (blocks : list Block)
           (blockNumber : Z) (top : Coord) : list PaintOp :=
  FillRect rect "#f0f0f0"
  :: (let bottom := coord_add top (blockBoundingRect_height blocks) in
      paint_blocks rect blocks blockNumber top bottom).

End PaintEvent.
End CodeEditor.

(** The numbers an event draws, in the order drawn. *)
Fixpoint drawn_numbers (ops : list PaintOp) : list Z :=
  match ops with
  | [] => []
  | DrawText _ _ _ _ _ number :: ops' => number :: drawn_numbers ops'
  | _ :: ops' => drawn_numbers ops'
  end.

(* ===================================================================== *)
(** * The vocabulary of the further statements *)
(* ===================================================================== *)

(** An event that reads or writes a file, or asks for a path. *)
Definition is_file_event (ev : Event) : bool :=
  match ev with
  | SaveFileDialog | FileWrite _ _ | PathExists _ | FileOpenRead _ => true
  | _ => false
  end.

(** A write of the text widget. *)
Definition is_buffer_write (ev : Event) : bool :=
  match ev with SetPlainText _ => true | _ => false end.

(** The files of a [Gui] trace that are written, with their text. *)
Fixpoint gui_writes (t : list GuiEvent) : list (string * string) :=
  match t with
  | [] => []
  | Core (FileWrite path text) :: t' => (path, text) :: gui_writes t'
  | _ :: t' => gui_writes t'
  end.

(** The files a trace of [check_connection] opens. *)
Fixpoint opened_paths (t : list Event) : list string :=
  match t with
  | [] => []
  | FileOpenRead path :: t' => path :: opened_paths t'
  | _ :: t' => opened_paths t'
  end.

(** The error dialog of [open_file]. *)
Definition open_error_dialog (e : PyExc) : GuiEvent :=
  Core (MsgCritical "Error Opening File"
          ("Could not read file:" ++ nl ++ exc_str e)).

(** What the editor is after [open_file] has read [content] from
    [path]: the widget holds what it makes of the content. *)
Definition opened `{Widget : TextWidget}
           (title_prefix path content : string) : Editor :=
  mkEditor (plain_text_of content) (Some path) (title_prefix ++ path).

(** The trace of [check_connection] for one file: the open, and [next]
    when the file loads and has its key. *)
Definition file_trace `{Host : ConfigHost} (path key : string)
           (next : list Event) : list Event :=
  FileOpenRead path
  :: match load_outcome path with
     | Raise _ => []
     | Ret data =>
         match lacks_key key data with
         | Ret false => next
         | _ => []
         end
     end.

(** The whole trace of [check_connection]. *)
Definition check_trace `{Host : ConfigHost} `{Out : Console}
           (tok cfg : string) : list Event :=
  if path_unset_or_absent tok then probes tok
  else if path_unset_or_absent cfg then PathExists tok :: probes cfg
  else
    PathExists tok :: PathExists cfg
    :: print_trace (token_notice_text tok)
         (file_trace tok qualtrics_token_name
            (print_trace (config_notice_text cfg)
               (file_trace cfg "project_id"
                  (print_trace simulation_notice_text
                     (print_trace connected_notice_text []))))).

(** The file loads and its data has the key. *)
Definition has_key `{Host : ConfigHost} (path key : string) : Prop :=
  exists data, load_outcome path = Ret data /\ lacks_key key data = Ret false.

(** The message box of [run_check_connection] for a result. *)
Definition connection_box (result : bool * string) : GuiEvent :=
  if fst result then Core (MsgInformation "Connection Success" (snd result))
  else MsgWarning "Connection Failed" (snd result).

(** The window [EditorWindow(path)] gives, and what building it does. *)
Definition window_for `{Disk : ReadHost} `{Widget : TextWidget}
           (path : string) : Editor :=
  match read_text path with
  | Ret content => opened "Editor - " path content
  | Raise _ => mkEditor EmptyString None "YAML Editor"
  end.

Definition window_events `{Disk : ReadHost} (path : string) : list GuiEvent :=
  Core (FileOpenRead path)
  :: match read_text path with
     | Ret content => [Core (SetPlainText content)]
     | Raise e => [open_error_dialog e]
     end.

(** A message box of any kind. *)
Definition is_message_box (ev : GuiEvent) : bool :=
  match ev with
  | Core (MsgInformation _ _) | Core (MsgCritical _ _) | MsgWarning _ _ => true
  | _ => false
  end.

Section LauncherVocabulary.
Context `{Store : SettingsStore}.

(** An Edit button is enabled exactly when its line edit has a path. *)
Definition buttons_follow_paths (w : Launcher) : Prop :=
  edit_token_btn w = str_truthy (token_file_path_edit w)
  /\ edit_project_btn w = str_truthy (project_config_path_edit w).

(** What a store of settings has to do: a value that was set is read
    back, and setting one key leaves the other keys alone. *)
Definition store_laws : Prop :=
  (forall s k v d, value (setValue s k v) k d = v)
  /\ (forall s k k' v d, k <> k' -> value (setValue s k v) k' d = value s k' d).

End LauncherVocabulary.

Section LauncherSteps.
Context `{Store : SettingsStore} `{Disk : ReadHost} `{Files : ConfigHost}.
Context `{Dialog : OpenDialog} `{Widget : TextWidget} `{Out : Console}.

(** The methods of the launcher that a user can set off, run on [w] with
    the run [r]. *)
Definition launcher_step (w : Launcher) (r : GuiRun Launcher unit) : Prop :=
  LauncherWindow.load_settings w = Some r
  \/ LauncherWindow.save_settings w = Some r
  \/ LauncherWindow.closeEvent w = Some r
  \/ LauncherWindow.browse_token_file w = Some r
  \/ LauncherWindow.browse_project_file w = Some r
  \/ LauncherWindow.edit_token_file w = Some r
  \/ LauncherWindow.edit_project_file w = Some r
  \/ LauncherWindow.run_check_connection w = Some r.

End LauncherSteps.

(* ===================================================================== *)
(** * More sample hosts *)
(* ===================================================================== *)

(** Reading gives the content of the sample files. *)
#[local] Instance sample_reader : ReadHost := {
  read_text := fun p =>
    match lookup p sample_files with
    | Some content => Ret content
    | None => Raise (OtherException "FileNotFoundError"
                       "[Errno 2] No such file or directory")
    end
}.

(** The user picks [token.yaml] in the open dialog. *)
#[local] Instance sample_open_dialog : OpenDialog := {
  getOpenFileName := "token.yaml"
}.

(** Settings as a list of pairs, the newest first. *)
#[local] Instance sample_store : SettingsStore := {
  Settings := list (string * string);
  value := fun s k d => match lookup k s with Some v => v | None => d end;
  setValue := fun s k v => (k, v) :: s
}.

(** Whole pixels for coordinates. *)
#[local] Instance sample_geometry : Geometry := {
  Coord := Z;
  coord_add := Z.add;
  coord_le_int := Z.leb;
  coord_ge_int := Z.geb;
  coord_int := fun z => z
}.

(** Three lines of 17 pixels; in the second list the middle one is
    hidden. *)
Definition sample_blocks : list (@Block sample_geometry) :=
  [mkBlock true 17%Z; mkBlock true 17%Z; mkBlock true 17%Z].

Definition sample_folded_blocks : list (@Block sample_geometry) :=
  [mkBlock true 17%Z; mkBlock false 0%Z; mkBlock true 17%Z].

(** The user picks a file that is not there. *)
Definition missing_open_dialog : OpenDialog := {|
  getOpenFileName := "missing.yaml"
|}.

(** A launcher with both sample files chosen, and one with nothing
    chosen. *)
Definition sample_launcher : @Launcher sample_store :=
  mkLauncher "token.yaml" true "config.yaml" true [] [].

Definition empty_launcher : @Launcher sample_store :=
  mkLauncher EmptyString false EmptyString false [] [].

(* ===================================================================== *)
(** * Properties of the line-number gutter *)
(* ===================================================================== *)

Section Gutter.
Local Open Scope Z_scope.

(** The loop adds to [digits] the exponent of the largest power of ten
    that is at most [count]. *)
Lemma digits_loop_spec (count digits : Z) :
  1 <= count ->
  exists k, 0 <= k /\ digits_loop count digits = digits + k
            /\ 10 ^ k <= count < 10 ^ (k + 1).
Proof.
  funelim (digits_loop count digits); intros Hc.
  - assert (Hq : 1 <= count / 10) by (apply Z.div_le_lower_bound; lia).
    match goal with IH : _ -> exists _, _ |- _ =>
      destruct (IH Hq) as (k & Hk & Hloop & Hlo & Hhi) end.
    exists (k + 1). split; [lia|]. split; [lia|].
    pose proof (Z.div_mod count 10 ltac:(lia)) as Hdm.
    pose proof (Z.mod_pos_bound count 10 ltac:(lia)) as Hmod.
    rewrite !Z.pow_add_r in * by lia.
    change (10 ^ 1) with 10 in *. lia.
  - exists 0. split; [lia|]. split; [lia|].
    change (10 ^ 0) with 1. change (10 ^ (0 + 1)) with 10. lia.
Qed.

(** A number has one digit count. *)
Lemma decimal_digits_unique (m d d' : Z) :
  decimal_digits m d -> decimal_digits m d' -> d = d'.
Proof.
  unfold decimal_digits. intros (H1 & Hlo & Hhi) (H1' & Hlo' & Hhi').
  destruct (Z.lt_trichotomy d d') as [Hlt | [Heq | Hgt]]; [|exact Heq|].
  - assert (10 ^ d <= 10 ^ (d' - 1)) by (apply Z.pow_le_mono_r; lia). lia.
  - assert (10 ^ d' <= 10 ^ (d - 1)) by (apply Z.pow_le_mono_r; lia). lia.
Qed.

(** C10.  For every block count [n] (zero and negative values included,
    [max] brings them to 1) the digit-counting loop ends, and
    [lineNumberAreaWidth] returns [10 + horizontalAdvance('9') * d], where
    [d] is the number of decimal digits of [max(1, n)], that is
    [floor(log10(max(1, n))) + 1]. *)
Theorem lineNumberAreaWidth_decimal_digits (horizontalAdvance9 n : Z) :
  exists d, decimal_digits (Z.max 1 n) d
            /\ lineNumberAreaWidth horizontalAdvance9 n
               = 10 + horizontalAdvance9 * d.
Proof.
  unfold lineNumberAreaWidth, decimal_digits.
  destruct (digits_loop_spec (Z.max 1 n) 1 ltac:(lia))
    as (k & Hk & Hloop & Hlo & Hhi).
  exists (1 + k). rewrite Hloop.
  replace (1 + k - 1) with k by lia. rewrite (Z.add_comm 1 k).
  repeat split; try lia.
Qed.

Example lineNumberAreaWidth_1 : lineNumberAreaWidth 9 0 = 19.
Proof. reflexivity. Qed.

Example lineNumberAreaWidth_999 : lineNumberAreaWidth 9 999 = 37.
Proof. reflexivity. Qed.

Example lineNumberAreaWidth_1000 : lineNumberAreaWidth 9 1000 = 46.
Proof. reflexivity. Qed.

End Gutter.

(* ===================================================================== *)
(** * Properties of the string operations *)
(* ===================================================================== *)

Section Strings.
Local Open Scope nat_scope.

Lemma length_app (s1 s2 : string) :
  String.length (s1 ++ s2) = String.length s1 + String.length s2.
Proof. induction s1 as [|c s1 IH]; simpl; [reflexivity | now rewrite IH]. Qed.

Lemma substring_whole (s : string) : substring 0 (String.length s) s = s.
Proof. induction s as [|c s IH]; simpl; [reflexivity | now rewrite IH]. Qed.

Lemma substring_zero (n : nat) (s : string) : substring n 0 s = EmptyString.
Proof.
  revert n. induction s as [|c s IH]; intros [|n]; simpl; auto.
Qed.

Lemma substring_skip_app (p s : string) (m : nat) :
  substring (String.length p) m (p ++ s) = substring 0 m s.
Proof. induction p as [|c p IH]; simpl; [reflexivity | exact IH]. Qed.

Lemma substring_split (s : string) (n : nat) :
  n <= String.length s ->
  s = substring 0 n s ++ substring n (String.length s - n) s.
Proof.
  revert n. induction s as [|c s IH]; intros [|n] Hn; simpl in *.
  - reflexivity.
  - lia.
  - now rewrite substring_whole.
  - f_equal. apply IH. lia.
Qed.

(** [endswith1] is the suffix relation. *)
Lemma endswith1_iff (s suffix : string) :
  endswith1 s suffix = true <-> exists p, s = p ++ suffix.
Proof.
  unfold endswith1. rewrite andb_true_iff, Nat.leb_le, String.eqb_eq. split.
  - intros [Hlen Hsub].
    exists (substring 0 (String.length s - String.length suffix) s).
    pose proof (substring_split s (String.length s - String.length suffix)
                  ltac:(lia)) as Hsplit.
    replace (String.length s - (String.length s - String.length suffix))
      with (String.length suffix) in Hsplit by lia.
    rewrite Hsub in Hsplit. exact Hsplit.
  - intros [p ->]. rewrite length_app. split; [lia|].
    replace (String.length p + String.length suffix - String.length suffix)
      with (String.length p) by lia.
    rewrite substring_skip_app. apply substring_whole.
Qed.

Lemma endswith_app_yaml (p : string) :
  endswith (p ++ ".yaml") [".yaml"; ".yml"] = true.
Proof.
  unfold endswith. simpl existsb.
  replace (endswith1 (p ++ ".yaml") ".yaml") with true; [reflexivity|].
  symmetry. apply endswith1_iff. now exists p.
Qed.

Example endswith_yml : endswith "conf.yml" [".yaml"; ".yml"] = true.
Proof. reflexivity. Qed.

Example endswith_backup : endswith "conf.yaml.bak" [".yaml"; ".yml"] = false.
Proof. reflexivity. Qed.

Example endswith_short : endswith "yml" [".yaml"; ".yml"] = false.
Proof. reflexivity. Qed.

Example strip_both_sides : strip ("  a b " ++ nl) = "a b".
Proof. reflexivity. Qed.

Example str_contains_inside :
  str_contains "QUALTRICS_APITOKEN" "my QUALTRICS_APITOKEN here" = true.
Proof. reflexivity. Qed.

Lemma str_truthy_app_r (a : string) (c : ascii) (b : string) :
  str_truthy (a ++ String c b) = true.
Proof. destruct a; reflexivity. Qed.

Lemma str_truthy_rev (s : string) : str_truthy (string_rev s) = str_truthy s.
Proof. destruct s as [|c s]; simpl; [reflexivity | apply str_truthy_app_r]. Qed.

Lemma lstrip_all_space (s : string) :
  all_space s = true -> lstrip s = EmptyString.
Proof.
  induction s as [|c s IH]; simpl; [reflexivity|].
  intros [Hc Hs]%andb_true_iff. rewrite Hc. auto.
Qed.

Lemma lstrip_not_all_space (s : string) :
  all_space s = false ->
  exists c r, lstrip s = String c r /\ isspace c = false.
Proof.
  induction s as [|c s IH]; simpl; [discriminate|].
  destruct (isspace c) eqn:Hc; simpl; [exact IH|].
  intros _. now exists c, s.
Qed.

Lemma lstrip_ends_nonspace (x : string) (c : ascii) :
  isspace c = false -> str_truthy (lstrip (x ++ String c EmptyString)) = true.
Proof.
  intros Hc. induction x as [|d x IH]; simpl.
  - now rewrite Hc.
  - destruct (isspace d); [exact IH | reflexivity].
Qed.

(** [strip] leaves nothing exactly of the texts that are empty or all
    white space. *)
Lemma strip_blank_iff (s : string) :
  str_truthy (strip s) = false <-> all_space s = true.
Proof.
  unfold strip, rstrip. rewrite str_truthy_rev. split.
  - intros Hs. destruct (all_space s) eqn:Ha; [reflexivity|].
    destruct (lstrip_not_all_space s Ha) as (c & r & Hl & Hc).
    rewrite Hl in Hs. simpl in Hs.
    rewrite lstrip_ends_nonspace in Hs by exact Hc. discriminate.
  - intros Ha. now rewrite (lstrip_all_space s Ha).
Qed.

Lemma strip_nonblank_iff (s : string) :
  str_truthy (strip s) = true <-> all_space s = false.
Proof.
  rewrite <- !not_true_iff_false, <- strip_blank_iff.
  destruct (str_truthy (strip s)); intuition congruence.
Qed.

End Strings.

(* ===================================================================== *)
(** * Properties of the editors *)
(* ===================================================================== *)

(** Runs the state-and-trace plumbing of a computation; what is left are
    the tests on the data. *)
Ltac eff_run :=
  cbv beta iota zeta delta
    [bind ret raise emit get put call try_except find_clause
     toPlainText setPlainText set_current_file_path setWindowTitle write_file
     YAMLEditor.show_error_message YAMLEditor.show_info_message
     EditorWindow.show_error_message
     text_edit current_file_path windowTitle
     opt_str_truthy path_of is_Exception List.app].

Section SaveAs.
Context `{Host : EditorHost} `{Dialog : SaveDialog}.

Lemma saved_path_suffix p : endswith (saved_path p) [".yaml"; ".yml"] = true.
Proof.
  unfold saved_path. destruct (endswith p [".yaml"; ".yml"]) eqn:E.
  - exact E.
  - apply endswith_app_yaml.
Qed.

Lemma saved_path_truthy p :
  str_truthy p = true -> str_truthy (saved_path p) = true.
Proof.
  unfold saved_path. destruct (endswith p _); [auto|].
  destruct p; [discriminate | reflexivity].
Qed.

Lemma YAMLEditor_save_file_as_run (fuel : nat) (ed : Editor) :
  str_truthy getSaveFileName = true ->
  YAMLEditor.save_file_as (S (S fuel)) ed
  = Some (mkRun (Ret tt)
            (mkEditor (text_edit ed) (Some (saved_path getSaveFileName))
               ("YAML Editor - " ++ saved_path getSaveFileName))
            (SaveFileDialog
               :: FileWrite (saved_path getSaveFileName) (text_edit ed)
               :: save_error_dialog (saved_path getSaveFileName)
                    (text_edit ed))).
Proof.
  intros Hp. pose proof (saved_path_truthy _ Hp) as Hq.
  unfold save_error_dialog, saved_path in *.
  cbn [YAMLEditor.save_file_as YAMLEditor.save_file].
  rewrite Hp.
  destruct (endswith getSaveFileName [".yaml"; ".yml"]); cbn [negb];
    eff_run; rewrite Hq;
    match goal with |- context [write_text ?p ?t] =>
      destruct (write_text p t) end; reflexivity.
Qed.

Lemma EditorWindow_save_file_as_run (fuel : nat) (ed : Editor) :
  str_truthy getSaveFileName = true ->
  EditorWindow.save_file_as (S (S fuel)) ed
  = Some (mkRun (Ret tt)
            (mkEditor (text_edit ed) (Some (saved_path getSaveFileName))
               ("Editor - " ++ saved_path getSaveFileName))
            (SaveFileDialog
               :: FileWrite (saved_path getSaveFileName) (text_edit ed)
               :: save_error_dialog (saved_path getSaveFileName)
                    (text_edit ed))).
Proof.
  intros Hp. pose proof (saved_path_truthy _ Hp) as Hq.
  unfold save_error_dialog, saved_path in *.
  cbn [EditorWindow.save_file_as EditorWindow.save_file].
  rewrite Hp.
  destruct (endswith getSaveFileName [".yaml"; ".yml"]); cbn [negb];
    eff_run; rewrite Hq;
    match goal with |- context [write_text ?p ?t] =>
      destruct (write_text p t) end; reflexivity.
Qed.

(** A cancelled dialog changes nothing. *)
Lemma save_file_as_cancelled (fuel : nat) (ed : Editor) :
  str_truthy getSaveFileName = false ->
  YAMLEditor.save_file_as (S fuel) ed
  = Some (mkRun (Ret tt) ed [SaveFileDialog])
  /\ EditorWindow.save_file_as (S fuel) ed
     = Some (mkRun (Ret tt) ed [SaveFileDialog]).
Proof.
  intros Hp.
  cbn [YAMLEditor.save_file_as EditorWindow.save_file_as].
  rewrite Hp. split; reflexivity.
Qed.

(** Three levels of calls are all [save_file] ever needs: it writes, or
    it asks for a path and then writes or gives up. *)
Lemma save_file_total (fuel : nat) (ed : Editor) :
  (exists r, YAMLEditor.save_file (S (S (S fuel))) ed = Some r)
  /\ (exists r, EditorWindow.save_file (S (S (S fuel))) ed = Some r).
Proof.
  assert (Hask :
    (str_truthy getSaveFileName = false
     \/ str_truthy getSaveFileName = true
        /\ str_truthy (saved_path getSaveFileName) = true)).
  { destruct (str_truthy getSaveFileName) eqn:Hp; [right | now left].
    split; [reflexivity | now apply saved_path_truthy]. }
  unfold saved_path in Hask.
  destruct ed as [text path title].
  cbn [YAMLEditor.save_file EditorWindow.save_file
       YAMLEditor.save_file_as EditorWindow.save_file_as].
  eff_run.
  assert (Hpath : opt_str_truthy path = true \/ opt_str_truthy path = false)
    by (destruct (opt_str_truthy path); auto).
  destruct path as [p|]; cbn [opt_str_truthy] in Hpath.
  1: destruct Hpath as [Hpath | Hpath]; rewrite Hpath.
  1: now destruct (write_text _ _); split; eexists.
  all: destruct Hask as [Hp | [Hp Hq]]; rewrite Hp;
    [ now split; eexists | ].
  all: destruct (endswith getSaveFileName [".yaml"; ".yml"]);
    cbn [negb] in *; rewrite Hq;
    now destruct (write_text _ _); split; eexists.
Qed.

(** C9.  When the user chooses a non-empty path [p], [save_file_as]
    (of [YAMLEditor] and of [EditorWindow], with room for its two nested
    calls) returns normally; it stores in [current_file_path] the path
    [q] that is [p] when [p] ends with [.yaml] or [.yml] and
    [p + '.yaml'] otherwise, so [q] ends with one of the two suffixes;
    and the save it triggers is one write of the buffer, to exactly [q],
    followed by an error dialog only when that write raises. *)
Theorem save_file_as_extension (fuel : nat) (ed : Editor) :
  str_truthy getSaveFileName = true ->
  let p := getSaveFileName in
  let q := if endswith p [".yaml"; ".yml"] then p else p ++ ".yaml" in
  endswith q [".yaml"; ".yml"] = true
  /\ YAMLEditor.save_file_as (S (S fuel)) ed
     = Some (mkRun (Ret tt)
               (mkEditor (text_edit ed) (Some q) ("YAML Editor - " ++ q))
               (SaveFileDialog :: FileWrite q (text_edit ed)
                  :: save_error_dialog q (text_edit ed)))
  /\ EditorWindow.save_file_as (S (S fuel)) ed
     = Some (mkRun (Ret tt)
               (mkEditor (text_edit ed) (Some q) ("Editor - " ++ q))
               (SaveFileDialog :: FileWrite q (text_edit ed)
                  :: save_error_dialog q (text_edit ed))).
Proof.
  intros Hp p q. fold (saved_path p) in q. subst p q.
  split; [apply saved_path_suffix|].
  split; [apply YAMLEditor_save_file_as_run
         | apply EditorWindow_save_file_as_run]; exact Hp.
Qed.

End SaveAs.

(** The user types [notes]: the file saved is [notes.yaml]. *)
Lemma save_file_as_extension_witness :
  str_truthy "notes" = true
  /\ endswith "notes.yaml" [".yaml"; ".yml"] = true
  /\ YAMLEditor.save_file_as 2 (mkEditor "a: 1" None "YAML Editor")
     = Some (mkRun (Ret tt)
               (mkEditor "a: 1" (Some "notes.yaml")
                  "YAML Editor - notes.yaml")
               [SaveFileDialog; FileWrite "notes.yaml" "a: 1"])
  /\ EditorWindow.save_file_as 2 (mkEditor "a: 1" None "YAML Editor")
     = Some (mkRun (Ret tt)
               (mkEditor "a: 1" (Some "notes.yaml") "Editor - notes.yaml")
               [SaveFileDialog; FileWrite "notes.yaml" "a: 1"]).
Proof.
  split; [reflexivity|].
  apply (save_file_as_extension (Host := sample_disk)
           (Dialog := sample_dialog) 0 (mkEditor "a: 1" None "YAML Editor")).
  reflexivity.
Defined.

(** The case analysis of a run of [format_yaml] on the editor [ed]: blank
    text or not, then the outcomes of [load] and of [dump]. *)
Ltac format_yaml_cases ed :=
  let text := fresh "text" in
  let Hs := fresh "Hs" in
  destruct ed as [text ? ?];
  unfold round_trip, options; eff_run;
  cbn [text_edit current_file_path windowTitle];
  destruct (all_space text) eqn:Hs;
  [ apply strip_blank_iff in Hs; rewrite Hs; reflexivity
  | apply strip_nonblank_iff in Hs; rewrite Hs; cbn [negb];
    destruct (yaml_load _ _) as [?|[?|? ?]]; eff_run;
    [ destruct (yaml_dump _ _) as [?|[?|? ?]]; eff_run; reflexivity
    | reflexivity | reflexivity ] ].

Section Format.
Context `{Lib : YamlLibrary} `{Widget : TextWidget}.

(** The error dialog carries the text of the exception at its end, so
    it is never empty. *)
Lemma error_text_nonempty (e : PyExc) :
  error_text_YAMLEditor e <> EmptyString
  /\ error_text_EditorWindow e <> EmptyString.
Proof. split; discriminate. Qed.

(** [format_yaml] of [YAMLEditor], case by case. *)
Lemma YAMLEditor_format_yaml_run (ed : Editor) :
  YAMLEditor.format_yaml ed
  = Some
      (if all_space (text_edit ed) then
         mkRun (Ret tt) ed
           [MsgInformation "Nothing to Format" "The editor is empty."]
       else
         match round_trip (text_edit ed) with
         | Ret t =>
             mkRun (Ret tt)
               (mkEditor (plain_text_of t) (current_file_path ed)
                  (windowTitle ed))
               [SetPlainText t]
         | Raise e =>
             if is_YAMLError e then
               mkRun (Ret tt) ed
                 [MsgCritical "YAML Formatting Error"
                    (error_text_YAMLEditor e)]
             else mkRun (Raise e) ed []
         end).
Proof. unfold YAMLEditor.format_yaml. format_yaml_cases ed. Qed.

(** [format_yaml] of [EditorWindow], case by case. *)
Lemma EditorWindow_format_yaml_run (ed : Editor) :
  EditorWindow.format_yaml ed
  = Some
      (if all_space (text_edit ed) then mkRun (Ret tt) ed []
       else
         match round_trip (text_edit ed) with
         | Ret t =>
             mkRun (Ret tt)
               (mkEditor (plain_text_of t) (current_file_path ed)
                  (windowTitle ed))
               [SetPlainText t]
         | Raise e =>
             if is_YAMLError e then
               mkRun (Ret tt) ed
                 [MsgCritical "YAML Formatting Error"
                    (error_text_EditorWindow e)]
             else mkRun (Raise e) ed []
         end).
Proof. unfold EditorWindow.format_yaml. format_yaml_cases ed. Qed.

(** [format_yaml] always returns or raises: no call is cut off. *)
Lemma format_yaml_total (ed : Editor) :
  (exists r, YAMLEditor.format_yaml ed = Some r)
  /\ (exists r, EditorWindow.format_yaml ed = Some r).
Proof.
  rewrite YAMLEditor_format_yaml_run, EditorWindow_format_yaml_run.
  split; eexists; reflexivity.
Qed.

(** Every [YAMLError] of the library, from [load] or from [dump], ends
    in the error dialog; the call returns normally. *)
Lemma format_yaml_YAMLError_caught (ed : Editor) (msg : string) :
  all_space (text_edit ed) = false ->
  round_trip (text_edit ed) = Raise (YAMLError msg) ->
  (exists r, YAMLEditor.format_yaml ed = Some r
             /\ format_result r
                = ParseFailed (error_text_YAMLEditor (YAMLError msg)))
  /\ (exists r, EditorWindow.format_yaml ed = Some r
                /\ format_result r
                   = ParseFailed (error_text_EditorWindow (YAMLError msg))).
Proof.
  intros Hs Hrt.
  rewrite YAMLEditor_format_yaml_run, EditorWindow_format_yaml_run.
  rewrite Hs, Hrt. split; eexists; split; reflexivity.
Qed.

(** A successful round trip gives the dumped text to the widget. *)
Lemma format_yaml_formatted (ed : Editor) (t : string) :
  all_space (text_edit ed) = false ->
  round_trip (text_edit ed) = Ret t ->
  YAMLEditor.format_yaml ed
  = Some (mkRun (Ret tt)
            (mkEditor (plain_text_of t) (current_file_path ed)
               (windowTitle ed))
            [SetPlainText t])
  /\ EditorWindow.format_yaml ed
     = Some (mkRun (Ret tt)
               (mkEditor (plain_text_of t) (current_file_path ed)
                  (windowTitle ed))
               [SetPlainText t]).
Proof.
  intros Hs Hrt.
  rewrite YAMLEditor_format_yaml_run, EditorWindow_format_yaml_run.
  rewrite Hs, Hrt. split; reflexivity.
Qed.

(** What a second [format_yaml] needs from the library and from the
    widget to leave the formatted buffer as it is: the widget holds the
    dumped text as it is, that text is not blank and its own round trip
    gives it back. *)
Lemma format_yaml_again (ed : Editor) (t : string) :
  all_space (text_edit ed) = false ->
  round_trip (text_edit ed) = Ret t ->
  plain_text_of t = t ->
  all_space t = false ->
  round_trip t = Ret t ->
  exists r1 r2,
    YAMLEditor.format_yaml ed = Some r1
    /\ YAMLEditor.format_yaml (final r1) = Some r2
    /\ format_result r1 = Formatted t
    /\ format_result r2 = Formatted t
    /\ final r2 = final r1.
Proof.
  intros Hs Hrt Hshown Hs' Hrt'.
  destruct (format_yaml_formatted ed t Hs Hrt) as [H1 _].
  eexists. eexists. split; [exact H1|]. cbn [final].
  rewrite YAMLEditor_format_yaml_run. cbn [text_edit].
  rewrite Hshown, Hs', Hrt', Hshown. repeat split.
Qed.

(** C3, where the code departs from it.  When the text is not blank, so
    that it is parsed, and the library's [load] raises, [format_yaml] (of
    [YAMLEditor] and of [EditorWindow]) leaves the editor, its buffer
    included, as it was and never writes the buffer, whatever the
    exception is.  When the exception is a [YAMLError] the call returns
    normally with the one effect of an error dialog: the result is
    [ParseFailed] with a message that is not empty and ends with the text
    of the parser's exception (which has the position when the parser
    gives one).  When it is not, the [except YAMLError] clause does not
    apply: the result is not [ParseFailed], the exception leaves
    [format_yaml] and nothing is shown. *)
Theorem format_yaml_load_failure (ed : Editor) (e : PyExc) :
  all_space (text_edit ed) = false ->
  yaml_load options (text_edit ed) = Raise e ->
  let m1 := "Could not parse YAML. Please check your syntax." ++ nl ++ nl
            ++ "Error: " ++ exc_str e in
  let m2 := "Could not parse YAML." ++ nl ++ "Error: " ++ exc_str e in
  let r1 := if is_YAMLError e
            then mkRun (Ret tt) ed [MsgCritical "YAML Formatting Error" m1]
            else mkRun (Raise e) ed [] in
  let r2 := if is_YAMLError e
            then mkRun (Ret tt) ed [MsgCritical "YAML Formatting Error" m2]
            else mkRun (Raise e) ed [] in
  YAMLEditor.format_yaml ed = Some r1
  /\ EditorWindow.format_yaml ed = Some r2
  /\ final r1 = ed /\ final r2 = ed
  /\ (forall t, ~ In (SetPlainText t) (trace r1))
  /\ (forall t, ~ In (SetPlainText t) (trace r2))
  /\ (is_YAMLError e = true ->
      format_result r1 = ParseFailed m1 /\ format_result r2 = ParseFailed m2
      /\ m1 <> EmptyString /\ m2 <> EmptyString)
  /\ (is_YAMLError e = false ->
      format_result r1 = Uncaught e /\ format_result r2 = Uncaught e
      /\ trace r1 = [] /\ trace r2 = []).
Proof.
  intros Hs Hload m1 m2 r1 r2.
  rewrite YAMLEditor_format_yaml_run, EditorWindow_format_yaml_run.
  unfold round_trip. rewrite Hs, Hload.
  subst r1 r2 m1 m2. unfold error_text_YAMLEditor, error_text_EditorWindow.
  destruct (is_YAMLError e); repeat split; try discriminate;
    try (intros t [Hin | []]; discriminate); intros t [].
Qed.

(** C4, as the code has it.  On a text that is empty or all white
    space, [format_yaml] returns normally without parsing and leaves the
    editor as it was; the result is the nothing-to-format one.
    [YAMLEditor] (edit_1.py, edit_linenum.py) shows one informational
    notice and no error dialog; [EditorWindow] (main1.py) shows
    nothing. *)
Theorem format_yaml_blank (ed : Editor) :
  all_space (text_edit ed) = true ->
  let r1 := mkRun (Ret tt) ed
              [MsgInformation "Nothing to Format" "The editor is empty."] in
  let r2 := mkRun (Ret tt) ed [] in
  YAMLEditor.format_yaml ed = Some r1
  /\ EditorWindow.format_yaml ed = Some r2
  /\ format_result r1 = NothingToFormat
  /\ format_result r2 = NothingToFormat.
Proof.
  intros Hs r1 r2.
  rewrite YAMLEditor_format_yaml_run, EditorWindow_format_yaml_run.
  rewrite Hs. repeat split.
Qed.

(** C2, where the code departs from it.  When the text is not blank
    and the library's [load] raises an exception that is not a
    [YAMLError], the [except YAMLError] clause of [format_yaml] does not
    apply: the exception leaves [format_yaml] (of [YAMLEditor] and of
    [EditorWindow]), no dialog is shown and the result is not
    [ParseFailed]. *)
Theorem format_yaml_exception_escapes (ed : Editor) (cls msg : string) :
  all_space (text_edit ed) = false ->
  yaml_load options (text_edit ed) = Raise (OtherException cls msg) ->
  let r := mkRun (Raise (OtherException cls msg)) ed [] in
  YAMLEditor.format_yaml ed = Some r
  /\ EditorWindow.format_yaml ed = Some r
  /\ format_result r = Uncaught (OtherException cls msg).
Proof.
  intros Hs Hload r.
  rewrite YAMLEditor_format_yaml_run, EditorWindow_format_yaml_run.
  unfold round_trip. rewrite Hs, Hload. repeat split.
Qed.

(** An exception leaves [format_yaml] exactly when the text is not
    blank and the library raises something that is not a [YAMLError]. *)
Lemma format_yaml_uncaught_iff (ed : Editor) (e : PyExc) :
  (exists r, YAMLEditor.format_yaml ed = Some r /\ outcome r = Raise e)
  <-> all_space (text_edit ed) = false
      /\ round_trip (text_edit ed) = Raise e
      /\ is_YAMLError e = false.
Proof.
  rewrite YAMLEditor_format_yaml_run. split.
  - intros (r & Hr & Ho). injection Hr as <-.
    destruct (all_space (text_edit ed)); [discriminate|].
    destruct (round_trip (text_edit ed)) as [t|e']; [discriminate|].
    destruct (is_YAMLError e') eqn:Hy; [discriminate|].
    cbn in Ho. injection Ho as ->. auto.
  - intros (Hs & Hrt & Hy). rewrite Hs, Hrt, Hy. eexists. split; reflexivity.
Qed.

End Format.

(** The unclosed flow sequence of the specification is caught; the
    integer tag on a word is not. *)
Lemma format_yaml_load_failure_witness :
  (all_space "key: [unclosed" = false
   /\ yaml_load options "key: [unclosed"
      = Raise (YAMLError "while parsing a flow sequence, expected ',' or ']'")
   /\ YAMLEditor.format_yaml (Widget := sample_widget)
        (mkEditor "key: [unclosed" None "YAML Editor")
      = Some (mkRun (Ret tt) (mkEditor "key: [unclosed" None "YAML Editor")
                [MsgCritical "YAML Formatting Error"
                   ("Could not parse YAML. Please check your syntax."
                    ++ nl ++ nl ++ "Error: "
                    ++ "while parsing a flow sequence, expected ',' or ']'")]))
  /\ (all_space "!!int abc" = false
      /\ yaml_load options "!!int abc"
         = Raise (OtherException "ValueError"
                    "invalid literal for int() with base 10: 'abc'")
      /\ EditorWindow.format_yaml (Widget := sample_widget)
           (mkEditor "!!int abc" None "YAML Editor")
         = Some (mkRun
                   (Raise (OtherException "ValueError"
                             "invalid literal for int() with base 10: 'abc'"))
                   (mkEditor "!!int abc" None "YAML Editor") [])).
Proof.
  split; (split; [reflexivity|]; split; [reflexivity|]).
  - apply (format_yaml_load_failure (Lib := sample_yaml)
             (Widget := sample_widget)
             (mkEditor "key: [unclosed" None "YAML Editor")
             (YAMLError "while parsing a flow sequence, expected ',' or ']'"));
      reflexivity.
  - apply (format_yaml_load_failure (Lib := sample_yaml)
             (Widget := sample_widget)
             (mkEditor "!!int abc" None "YAML Editor")
             (OtherException "ValueError"
                "invalid literal for int() with base 10: 'abc'"));
      reflexivity.
Defined.

Section FormatSamples.
#[local] Existing Instance sample_widget.

(** The two blank texts of the specification, in the two editors. *)
Lemma format_yaml_blank_witness :
  all_space ("   " ++ nl) = true
  /\ all_space EmptyString = true
  /\ YAMLEditor.format_yaml (mkEditor ("   " ++ nl) None "YAML Editor")
     = Some (mkRun (Ret tt) (mkEditor ("   " ++ nl) None "YAML Editor")
               [MsgInformation "Nothing to Format" "The editor is empty."])
  /\ EditorWindow.format_yaml (mkEditor EmptyString None "YAML Editor")
     = Some (mkRun (Ret tt) (mkEditor EmptyString None "YAML Editor") []).
Proof.
  split; [reflexivity|]. split; [reflexivity|]. split.
  - apply (format_yaml_blank (Lib := sample_yaml)
             (mkEditor ("   " ++ nl) None "YAML Editor")).
    reflexivity.
  - apply (format_yaml_blank (Lib := sample_yaml)
             (mkEditor EmptyString None "YAML Editor")).
    reflexivity.
Defined.

(** C4 as stated fails for [EditorWindow]: on a blank buffer it shows no
    informational notice, its trace is empty. *)
Lemma format_yaml_blank_counterexample :
  all_space (text_edit (mkEditor EmptyString None "YAML Editor")) = true
  /\ exists r,
       EditorWindow.format_yaml (mkEditor EmptyString None "YAML Editor") = Some r
       /\ forall title text, ~ In (MsgInformation title text) (trace r).
Proof.
  split; [reflexivity|].
  eexists. split; [reflexivity|]. intros title text [].
Qed.

(** An integer tag on a word: the constructor's [ValueError] leaves
    [format_yaml]. *)
Lemma format_yaml_exception_escapes_witness :
  all_space "!!int abc" = false
  /\ yaml_load options "!!int abc"
     = Raise (OtherException "ValueError"
                "invalid literal for int() with base 10: 'abc'")
  /\ YAMLEditor.format_yaml (mkEditor "!!int abc" None "YAML Editor")
     = Some (mkRun (Raise (OtherException "ValueError"
                             "invalid literal for int() with base 10: 'abc'"))
               (mkEditor "!!int abc" None "YAML Editor") [])
  /\ EditorWindow.format_yaml (mkEditor "!!int abc" None "YAML Editor")
     = Some (mkRun (Raise (OtherException "ValueError"
                             "invalid literal for int() with base 10: 'abc'"))
               (mkEditor "!!int abc" None "YAML Editor") []).
Proof.
  split; [reflexivity|]. split; [reflexivity|].
  pose proof (format_yaml_exception_escapes (Lib := sample_yaml)
                (mkEditor "!!int abc" None "YAML Editor") "ValueError"
                "invalid literal for int() with base 10: 'abc'"
                eq_refl eq_refl) as (H1 & H2 & _).
  split; [exact H1 | exact H2].
Defined.

End FormatSamples.

(* ===================================================================== *)
(** * Properties of [check_connection] *)
(* ===================================================================== *)

Ltac check_run :=
  cbv beta iota zeta delta
    [check_connection path_missing load_file key_missing print
     bind ret raise emit get put call try_except find_clause
     is_Exception List.app].

(** The classification and the traces, down to the calls of the hosts. *)
Ltac check_vocabulary :=
  unfold validate, validate_file, after_print, check_trace, file_trace,
    print_trace, probes, token_notice, token_notice_text,
    config_notice_text, simulation_notice_text, connected_notice_text,
    path_unset_or_absent, load_outcome, lacks_key, failure.

Section CheckConnectionProperties.
Context `{Host : ConfigHost} `{Out : Console}.

Lemma path_unset_or_absent_false (p : string) :
  path_unset_or_absent p = false ->
  str_truthy p = true /\ os_path_exists p = true.
Proof.
  unfold path_unset_or_absent.
  destruct (str_truthy p), (os_path_exists p); cbn; intros; auto;
    discriminate.
Qed.

(** C7, as the code has it.  [check_connection] always returns a pair,
    the one that [validate] computes: the token-file not-found message
    when the token path is empty or does not exist; else the config-file
    not-found message when the config path is empty or does not exist;
    else the token file and then the config file are loaded and looked
    at, each after the print that announces it, and the first failure
    decides: a [YAMLError] gives the parse-error message, any other
    exception (the file cannot be opened or read, [in] is not defined on
    the loaded value, a [print] fails) gives the unexpected-error
    message, loaded data that is false or does not have the key
    ([QUALTRICS_APITOKEN], then [project_id]) gives the file's
    missing-key message; with no failure, and the two last prints
    done, the result is success with the fixed message. *)
Theorem check_connection_classification (tok cfg : string) :
  exists t, check_connection tok cfg tt
            = Some (mkRun (Ret (validate tok cfg)) tt t).
Proof.
  check_vocabulary. check_run.
  destruct (str_truthy tok); cbn [negb orb];
    [|eexists; reflexivity].
  destruct (os_path_exists tok); cbn [negb]; [|eexists; reflexivity].
  destruct (str_truthy cfg); cbn [negb orb]; [|eexists; reflexivity].
  destruct (os_path_exists cfg); cbn [negb]; [|eexists; reflexivity].
  destruct (print_outcome ("Attempting to read token from: " ++ tok))
    as [[]|e]; [|destruct e; eexists; reflexivity].
  destruct (open_r tok) as [f|e]; [|destruct e; eexists; reflexivity].
  destruct (safe_load f) as [td|e]; [|destruct e; eexists; reflexivity].
  destruct (truthy td); cbn [negb]; [|eexists; reflexivity].
  destruct (py_in qualtrics_token_name td) as [[|]|e]; cbn [negb];
    [|eexists; reflexivity|destruct e; eexists; reflexivity].
  destruct (print_outcome ("Attempting to read config from: " ++ cfg))
    as [[]|e]; [|destruct e; eexists; reflexivity].
  destruct (open_r cfg) as [g|e]; [|destruct e; eexists; reflexivity].
  destruct (safe_load g) as [cd|e]; [|destruct e; eexists; reflexivity].
  destruct (truthy cd); cbn [negb]; [|eexists; reflexivity].
  destruct (py_in "project_id" cd) as [[|]|e]; cbn [negb];
    [|eexists; reflexivity|destruct e; eexists; reflexivity].
  destruct (print_outcome
              "--- Simulation: Pretending to make an API call... ---")
    as [[]|e]; [|destruct e; eexists; reflexivity].
  destruct (print_outcome "Successfully connected to Qualtrics API.")
    as [[]|e]; [|destruct e; eexists; reflexivity].
  eexists; reflexivity.
Qed.

(** C8.  The order of the checks.  (a) A token path that is empty or
    does not exist gives the token not-found message whatever the config
    path and the files are, and nothing is opened: the only effect is the
    existence test of a non-empty token path.  (b) With the token path
    present, a config path that is empty or does not exist gives the
    config not-found message, after the token's existence test and again
    with nothing opened.  (c) With both paths present the trace is both
    existence tests, the token's first, then the first print and, when
    that print returns, the open of the token file and what follows it:
    when a file is opened at all, both existence tests come before it.
    (d) When the token file loads and its data lacks the key, the trace
    ends with the one open of the token file and the result is the token
    missing-key message, or, when the first print raises, the trace ends
    with that print and the result is the failure for its exception:
    either way the config file is not opened. *)
Theorem check_connection_order (tok cfg : string) :
  (path_unset_or_absent tok = true ->
   check_connection tok cfg tt
   = Some (mkRun (Ret (false, msg_token_not_found)) tt (probes tok)))
  /\ (path_unset_or_absent tok = false ->
      path_unset_or_absent cfg = true ->
      check_connection tok cfg tt
      = Some (mkRun (Ret (false, msg_config_not_found)) tt
                (PathExists tok :: probes cfg)))
  /\ (path_unset_or_absent tok = false ->
      path_unset_or_absent cfg = false ->
      exists r rest,
        check_connection tok cfg tt = Some r
        /\ trace r = PathExists tok :: PathExists cfg
                       :: print_trace (token_notice_text tok)
                            (FileOpenRead tok :: rest))
  /\ (path_unset_or_absent tok = false ->
      path_unset_or_absent cfg = false ->
      forall token_data,
        load_outcome tok = Ret token_data ->
        lacks_key qualtrics_token_name token_data = Ret true ->
        check_connection tok cfg tt
        = Some (mkRun (Ret (after_print (token_notice_text tok)
                              (false, msg_token_key_missing))) tt
                  (PathExists tok :: PathExists cfg
                   :: print_trace (token_notice_text tok)
                        [FileOpenRead tok]))).
Proof.
  unfold probes, print_trace, after_print, token_notice_text, load_outcome,
    lacks_key, failure.
  split; [|split; [|split]].
  - unfold path_unset_or_absent. check_run.
    destruct (str_truthy tok); cbn [negb orb]; [|reflexivity].
    intros ->. reflexivity.
  - intros [Ht He]%path_unset_or_absent_false.
    unfold path_unset_or_absent. check_run. rewrite Ht, He. cbn [negb].
    destruct (str_truthy cfg); cbn [negb orb]; [|reflexivity].
    intros ->. reflexivity.
  - intros [Ht He]%path_unset_or_absent_false
           [Hc Hf]%path_unset_or_absent_false.
    check_run. rewrite Ht, He, Hc, Hf. cbn [negb].
    destruct (print_outcome ("Attempting to read token from: " ++ tok))
      as [[]|e].
    2:{ destruct e; eexists; exists []; split; reflexivity. }
    destruct (open_r tok) as [f|e];
      [|destruct e; do 2 eexists; split; reflexivity].
    destruct (safe_load f) as [td|e];
      [|destruct e; do 2 eexists; split; reflexivity].
    destruct (truthy td); cbn [negb];
      [|do 2 eexists; split; reflexivity].
    destruct (py_in qualtrics_token_name td) as [[|]|e]; cbn [negb];
      [|do 2 eexists; split; reflexivity
       |destruct e; do 2 eexists; split; reflexivity].
    destruct (print_outcome ("Attempting to read config from: " ++ cfg))
      as [[]|e]; [|destruct e; do 2 eexists; split; reflexivity].
    destruct (open_r cfg) as [g|e];
      [|destruct e; do 2 eexists; split; reflexivity].
    destruct (safe_load g) as [cd|e];
      [|destruct e; do 2 eexists; split; reflexivity].
    destruct (truthy cd); cbn [negb];
      [|do 2 eexists; split; reflexivity].
    destruct (py_in "project_id" cd) as [[|]|e]; cbn [negb];
      [|do 2 eexists; split; reflexivity
       |destruct e; do 2 eexists; split; reflexivity].
    destruct (print_outcome
                "--- Simulation: Pretending to make an API call... ---")
      as [[]|e]; [|destruct e; do 2 eexists; split; reflexivity].
    destruct (print_outcome "Successfully connected to Qualtrics API.")
      as [[]|e]; [|destruct e; do 2 eexists; split; reflexivity].
    do 2 eexists; split; reflexivity.
  - intros [Ht He]%path_unset_or_absent_false
           [Hc Hf]%path_unset_or_absent_false td Hload Hlack.
    check_run. rewrite Ht, He, Hc, Hf. cbn [negb].
    destruct (print_outcome ("Attempting to read token from: " ++ tok))
      as [[]|e]; [|destruct e; reflexivity].
    destruct (open_r tok) as [f|e]; [|discriminate].
    rewrite Hload.
    destruct (truthy td); cbn [negb] in *; [|reflexivity].
    destruct (py_in qualtrics_token_name td) as [[|]|e]; cbn [negb] in *;
      try discriminate.
    reflexivity.
Qed.

End CheckConnectionProperties.

Section CheckSamples.
#[local] Existing Instance sample_console.

(** The seven results of [validate], on the sample files. *)
Example validate_token_not_found :
  validate EmptyString "config.yaml" = (false, msg_token_not_found).
Proof. reflexivity. Qed.

Example validate_config_not_found :
  validate "token.yaml" "missing.yaml" = (false, msg_config_not_found).
Proof. reflexivity. Qed.

Example validate_parse_error :
  validate "broken.yaml" "config.yaml"
  = (false, msg_parse_error
              (YAMLError "while parsing a flow sequence, expected ',' or ']'")).
Proof. reflexivity. Qed.

Example validate_token_key_missing :
  validate "nokey.yaml" "config.yaml" = (false, msg_token_key_missing).
Proof. reflexivity. Qed.

Example validate_config_key_missing :
  validate "token.yaml" "nokey.yaml" = (false, msg_config_key_missing).
Proof. reflexivity. Qed.

Example validate_unexpected :
  validate "number.yaml" "config.yaml"
  = (false, "An unexpected error occurred: "
            ++ "argument of type 'int' is not iterable").
Proof. reflexivity. Qed.

Example validate_success :
  validate "token.yaml" "config.yaml" = (true, msg_success).
Proof. reflexivity. Qed.

(** With the console closed, two good files give the unexpected-error
    message, and neither file is opened. *)
Example check_connection_closed_console :
  check_connection (Out := closed_console) "token.yaml" "config.yaml" tt
  = Some (mkRun (Ret (false, "An unexpected error occurred: "
                             ++ "I/O operation on closed file.")) tt
            [PathExists "token.yaml"; PathExists "config.yaml";
             token_notice "token.yaml"]).
Proof. reflexivity. Qed.

(** C7 as stated fails, in three ways.  First, both paths name existing
    files and the config file is not valid YAML, yet the result is not
    the parse-error message but the missing-key message of the token
    file, which is looked at first.  Second, a token file that holds the
    number 5 is valid YAML without the key, yet the result is not the
    missing-key message but the unexpected-error one.  Third, with two
    good files and a console that is closed the result is not success but
    the unexpected-error message. *)
Lemma check_connection_classification_counterexample :
  (path_unset_or_absent "nokey.yaml" = false
   /\ path_unset_or_absent "broken.yaml" = false
   /\ (exists msg, load_outcome "broken.yaml" = Raise (YAMLError msg))
   /\ (exists t, check_connection "nokey.yaml" "broken.yaml" tt
                 = Some (mkRun (Ret (false, msg_token_key_missing)) tt t))
   /\ (forall e, msg_token_key_missing <> msg_parse_error e))
  /\ (path_unset_or_absent "number.yaml" = false
      /\ path_unset_or_absent "config.yaml" = false
      /\ load_outcome "number.yaml" = Ret (PyInt 5)
      /\ (exists t e, check_connection "number.yaml" "config.yaml" tt
                      = Some (mkRun (Ret (false, msg_unexpected e)) tt t))
      /\ (forall e, msg_unexpected e <> msg_token_key_missing))
  /\ (validate "token.yaml" "config.yaml" = (true, msg_success)
      /\ exists t e,
           check_connection (Out := closed_console)
             "token.yaml" "config.yaml" tt
           = Some (mkRun (Ret (false, msg_unexpected e)) tt t)).
Proof.
  split; [|split].
  - split; [reflexivity|]. split; [reflexivity|].
    split; [eexists; reflexivity|].
    split; [eexists; reflexivity|].
    intros e. discriminate.
  - split; [reflexivity|]. split; [reflexivity|]. split; [reflexivity|].
    split; [do 2 eexists; reflexivity|].
    intros e. discriminate.
  - split; [reflexivity|]. do 2 eexists. reflexivity.
Qed.

(** The four parts of the order of checks, on the sample files; the
    last two also with the console closed. *)
Lemma check_connection_order_witness :
  check_connection "missing.yaml" "broken.yaml" tt
  = Some (mkRun (Ret (false, msg_token_not_found)) tt
            [PathExists "missing.yaml"])
  /\ check_connection "token.yaml" EmptyString tt
     = Some (mkRun (Ret (false, msg_config_not_found)) tt
               [PathExists "token.yaml"])
  /\ (exists r rest,
        check_connection "token.yaml" "config.yaml" tt = Some r
        /\ trace r = PathExists "token.yaml" :: PathExists "config.yaml"
                       :: token_notice "token.yaml"
                       :: FileOpenRead "token.yaml" :: rest)
  /\ check_connection "nokey.yaml" "config.yaml" tt
     = Some (mkRun (Ret (false, msg_token_key_missing)) tt
               [PathExists "nokey.yaml"; PathExists "config.yaml";
                token_notice "nokey.yaml"; FileOpenRead "nokey.yaml"])
  /\ (exists r,
        check_connection (Out := closed_console)
          "token.yaml" "config.yaml" tt = Some r
        /\ trace r = [PathExists "token.yaml"; PathExists "config.yaml";
                      token_notice "token.yaml"])
  /\ check_connection (Out := closed_console) "nokey.yaml" "config.yaml" tt
     = Some (mkRun (Ret (false, "An unexpected error occurred: "
                                ++ "I/O operation on closed file.")) tt
               [PathExists "nokey.yaml"; PathExists "config.yaml";
                token_notice "nokey.yaml"]).
Proof.
  split; [|split; [|split; [|split; [|split]]]].
  - apply (check_connection_order (Host := sample_config_host)
             (Out := sample_console) "missing.yaml" "broken.yaml").
    reflexivity.
  - apply (check_connection_order (Host := sample_config_host)
             (Out := sample_console) "token.yaml" EmptyString); reflexivity.
  - apply (check_connection_order (Host := sample_config_host)
             (Out := sample_console) "token.yaml" "config.yaml");
      reflexivity.
  - destruct (check_connection_order (Host := sample_config_host)
                (Out := sample_console) "nokey.yaml" "config.yaml")
      as (_ & _ & _ & Hd).
    apply (Hd eq_refl eq_refl (PyDict [(PyStr "other", PyInt 1)]));
      reflexivity.
  - destruct (check_connection_order (Host := sample_config_host)
                (Out := closed_console) "token.yaml" "config.yaml")
      as (_ & _ & Hc & _).
    destruct (Hc eq_refl eq_refl) as (r & rest & Hr & Ht).
    exists r. split; [exact Hr | exact Ht].
  - destruct (check_connection_order (Host := sample_config_host)
                (Out := closed_console) "nokey.yaml" "config.yaml")
      as (_ & _ & _ & Hd).
    apply (Hd eq_refl eq_refl (PyDict [(PyStr "other", PyInt 1)]));
      reflexivity.
Defined.

End CheckSamples.

(* ===================================================================== *)
(** * Further properties of the line-number gutter *)
(* ===================================================================== *)

Section GutterMore.
Local Open Scope Z_scope.

(** A number lies between two successive powers of ten in one way. *)
Lemma pow10_bracket_unique (m k k' : Z) :
  0 <= k -> 0 <= k' ->
  10 ^ k <= m < 10 ^ (k + 1) -> 10 ^ k' <= m < 10 ^ (k' + 1) -> k = k'.
Proof.
  intros Hk Hk' [Hlo Hhi] [Hlo' Hhi'].
  destruct (Z.lt_trichotomy k k') as [Hlt | [Heq | Hgt]]; [|exact Heq|].
  - assert (10 ^ (k + 1) <= 10 ^ k') by (apply Z.pow_le_mono_r; lia). lia.
  - assert (10 ^ (k' + 1) <= 10 ^ k) by (apply Z.pow_le_mono_r; lia). lia.
Qed.

(** The exponent the loop finds grows with the count. *)
Lemma pow10_bracket_mono (m m' k k' : Z) :
  0 <= k -> 0 <= k' -> m <= m' ->
  10 ^ k <= m < 10 ^ (k + 1) -> 10 ^ k' <= m' < 10 ^ (k' + 1) -> k <= k'.
Proof.
  intros Hk Hk' Hm [Hlo Hhi] [Hlo' Hhi'].
  destruct (Z_le_gt_dec k k') as [Hle | Hgt]; [exact Hle|].
  assert (10 ^ (k' + 1) <= 10 ^ k) by (apply Z.pow_le_mono_r; lia). lia.
Qed.

(** X1.  With a digit advance that is not negative, the gutter never
    gets narrower when the document gets more blocks. *)
Theorem lineNumberAreaWidth_monotone (horizontalAdvance9 n m : Z) :
  0 <= horizontalAdvance9 -> n <= m ->
  lineNumberAreaWidth horizontalAdvance9 n
  <= lineNumberAreaWidth horizontalAdvance9 m.
Proof.
  intros Hadv Hnm. unfold lineNumberAreaWidth.
  destruct (digits_loop_spec (Z.max 1 n) 1 ltac:(lia))
    as (k & Hk & -> & Hbr).
  destruct (digits_loop_spec (Z.max 1 m) 1 ltac:(lia))
    as (k' & Hk' & -> & Hbr').
  assert (k <= k')
    by (apply (pow10_bracket_mono (Z.max 1 n) (Z.max 1 m)); auto; lia).
  nia.
Qed.

(** X2.  Ten times as many blocks make the gutter wider by exactly one
    digit advance. *)
Theorem lineNumberAreaWidth_times_ten (horizontalAdvance9 n : Z) :
  1 <= n ->
  lineNumberAreaWidth horizontalAdvance9 (10 * n)
  = lineNumberAreaWidth horizontalAdvance9 n + horizontalAdvance9.
Proof.
  intros Hn. unfold lineNumberAreaWidth.
  rewrite !Z.max_r by lia.
  destruct (digits_loop_spec n 1 Hn) as (k & Hk & -> & Hlo & Hhi).
  destruct (digits_loop_spec (10 * n) 1 ltac:(lia))
    as (k' & Hk' & -> & Hbr').
  assert (k' = k + 1) as ->.
  { apply (pow10_bracket_unique (10 * n)); try lia.
    rewrite !Z.pow_add_r in * by lia. change (10 ^ 1) with 10 in *. lia. }
  ring.
Qed.

End GutterMore.

Lemma lineNumberAreaWidth_monotone_witness :
  (0 <= 9)%Z /\ (99 <= 100)%Z
  /\ (lineNumberAreaWidth 9 99 <= lineNumberAreaWidth 9 100)%Z.
Proof.
  split; [lia|]. split; [lia|].
  apply (lineNumberAreaWidth_monotone 9 99 100); lia.
Defined.

Lemma lineNumberAreaWidth_times_ten_witness :
  (1 <= 42)%Z
  /\ lineNumberAreaWidth 9 (10 * 42) = (lineNumberAreaWidth 9 42 + 9)%Z.
Proof.
  split; [lia|]. apply (lineNumberAreaWidth_times_ten 9 42). lia.
Defined.

(* ===================================================================== *)
(** * Properties of the painting of the line numbers *)
(* ===================================================================== *)

Section Paint.
Context `{Geo : Geometry}.
Variables (lineNumberArea_width fontMetrics_height : Z).
Variable invalid_height : Coord.
Local Open Scope Z_scope.

#[local] Abbreviation paint_blocks :=
  (CodeEditor.paint_blocks lineNumberArea_width fontMetrics_height
     invalid_height).
#[local] Abbreviation lineNumberAreaPaintEvent :=
  (CodeEditor.lineNumberAreaPaintEvent lineNumberArea_width
     fontMetrics_height invalid_height).

Lemma drawn_numbers_app (a b : list PaintOp) :
  drawn_numbers (a ++ b) = (drawn_numbers a ++ drawn_numbers b)%list.
Proof.
  induction a as [|op a IH]; [reflexivity|].
  destruct op; cbn; rewrite ?IH; reflexivity.
Qed.

(** The numbers the loop draws are the numbers of blocks it visits: each
    is above [blockNumber] by the position of its block, counted from 1,
    and that block is visible. *)
Lemma paint_blocks_numbers (rect : QRect) (blocks : list Block) :
  forall (blockNumber : Z) (top bottom : Coord),
    Forall (fun number =>
              exists block,
                nth_error blocks (Z.to_nat (number - blockNumber - 1))
                = Some block
                /\ isVisible block = true
                /\ blockNumber < number)
           (drawn_numbers (paint_blocks rect blocks blockNumber top bottom)).
Proof.
  induction blocks as [|block next IH]; intros bn top bottom; cbn.
  - constructor.
  - destruct (coord_le_int top (rect_bottom rect)); [|constructor].
    rewrite drawn_numbers_app. apply Forall_app. split.
    + destruct (isVisible block) eqn:Hv; cbn; [|constructor].
      destruct (coord_ge_int bottom (rect_top rect)); cbn; [|constructor].
      constructor; [|constructor].
      exists block. replace (bn + 1 - bn - 1) with 0 by lia.
      cbn. split; [reflexivity|]. split; [exact Hv | lia].
    + eapply Forall_impl; [|apply IH].
      intros number (b & Hnth & Hv & Hlt).
      exists b. split; [|split; [exact Hv | lia]].
      replace (Z.to_nat (number - bn - 1))
        with (S (Z.to_nat (number - (bn + 1) - 1))) by lia.
      exact Hnth.
Qed.

(** The loop draws its numbers in strictly growing order. *)
Lemma paint_blocks_sorted (rect : QRect) (blocks : list Block) :
  forall (blockNumber : Z) (top bottom : Coord),
    StronglySorted Z.lt
      (drawn_numbers (paint_blocks rect blocks blockNumber top bottom)).
Proof.
  induction blocks as [|block next IH]; intros bn top bottom; cbn.
  - constructor.
  - destruct (coord_le_int top (rect_bottom rect)); [|constructor].
    rewrite drawn_numbers_app.
    destruct (isVisible block && coord_ge_int bottom (rect_top rect));
      cbn; [|apply IH].
    constructor; [apply IH|].
    eapply Forall_impl; [|apply paint_blocks_numbers].
    intros number (_ & _ & _ & Hlt). lia.
Qed.

(** X3.  A paint event draws each line number at most once and in
    growing order, whatever the geometry is. *)
Theorem lineNumberAreaPaintEvent_sorted
        (rect : QRect) (blocks : list Block) (blockNumber : Z) (top : Coord) :
  StronglySorted Z.lt
    (drawn_numbers (lineNumberAreaPaintEvent rect blocks blockNumber top)).
Proof.
  unfold CodeEditor.lineNumberAreaPaintEvent. cbn [drawn_numbers].
  apply paint_blocks_sorted.
Qed.

(** X4.  Every number a paint event draws is the number, counted from
    one, of a block that exists at or after the first visible block, and
    that block is visible: nothing is drawn for a hidden block or past
    the end of the document. *)
Theorem lineNumberAreaPaintEvent_visible_blocks
        (rect : QRect) (blocks : list Block) (blockNumber : Z) (top : Coord) :
  Forall (fun number =>
            blockNumber + 1 <= number
            <= blockNumber + Z.of_nat (List.length blocks)
            /\ exists block,
                 nth_error blocks (Z.to_nat (number - (blockNumber + 1)))
                 = Some block
                 /\ isVisible block = true)
         (drawn_numbers (lineNumberAreaPaintEvent rect blocks blockNumber top)).
Proof.
  unfold CodeEditor.lineNumberAreaPaintEvent. cbn [drawn_numbers].
  eapply Forall_impl; [|apply paint_blocks_numbers].
  intros number (block & Hnth & Hv & Hlt).
  assert (Hlen : (Z.to_nat (number - blockNumber - 1) < List.length blocks)%nat)
    by (apply nth_error_Some; congruence).
  split; [lia|]. exists block.
  replace (number - (blockNumber + 1)) with (number - blockNumber - 1) by lia.
  auto.
Qed.

(** X5.  The gutter has room for what is painted: when the blocks
    painted are blocks of a document of [blockCount] blocks, every number
    drawn has at most as many decimal digits as [lineNumberAreaWidth]
    counts for that document. *)
Theorem lineNumberAreaPaintEvent_fits_gutter
        (horizontalAdvance9 blockCount : Z)
        (rect : QRect) (blocks : list Block) (blockNumber : Z) (top : Coord) :
  0 <= blockNumber ->
  blockNumber + Z.of_nat (List.length blocks) <= blockCount ->
  exists digits,
    lineNumberAreaWidth horizontalAdvance9 blockCount
    = 10 + horizontalAdvance9 * digits
    /\ Forall (fun number => 1 <= number < 10 ^ digits)
              (drawn_numbers
                 (lineNumberAreaPaintEvent rect blocks blockNumber top)).
Proof.
  intros Hbn Hcount. unfold lineNumberAreaWidth.
  destruct (digits_loop_spec (Z.max 1 blockCount) 1 ltac:(lia))
    as (k & Hk & -> & Hlo & Hhi).
  exists (1 + k). split; [reflexivity|].
  unfold CodeEditor.lineNumberAreaPaintEvent. cbn [drawn_numbers].
  eapply Forall_impl; [|apply paint_blocks_numbers].
  intros number (block & Hnth & Hv & Hlt).
  assert (Hlen : (Z.to_nat (number - blockNumber - 1) < List.length blocks)%nat)
    by (apply nth_error_Some; congruence).
  rewrite (Z.add_comm 1 k). lia.
Qed.

End Paint.

(** Three lines, the second hidden, painted from block 0 at the top of a
    tall rectangle: lines 1 and 3 are numbered. *)
Example lineNumberAreaPaintEvent_folded :
  drawn_numbers
    (CodeEditor.lineNumberAreaPaintEvent 40 17 0%Z (mkQRect 0 100)
       sample_folded_blocks 0 0%Z)
  = [1%Z; 3%Z].
Proof. reflexivity. Qed.

(** The rectangle ends before the third line: it is not numbered. *)
Example lineNumberAreaPaintEvent_clipped :
  CodeEditor.lineNumberAreaPaintEvent 40 17 0%Z (mkQRect 0 20)
    sample_blocks 7 0%Z
  = [FillRect (mkQRect 0 20) "#f0f0f0";
     SetPen "darkGray"; DrawText 0 0 35 17 "AlignRight" 8;
     SetPen "darkGray"; DrawText 0 17 35 17 "AlignRight" 9].
Proof. reflexivity. Qed.

Lemma lineNumberAreaPaintEvent_fits_gutter_witness :
  (0 <= 7)%Z /\ (7 + 3 <= 10)%Z
  /\ exists digits,
       lineNumberAreaWidth 9 10 = (10 + 9 * digits)%Z
       /\ Forall (fun number => (1 <= number < 10 ^ digits)%Z)
            (drawn_numbers
               (CodeEditor.lineNumberAreaPaintEvent 40 17 0%Z (mkQRect 0 100)
                  sample_blocks 7 0%Z)).
Proof.
  split; [lia|]. split; [lia|].
  apply (lineNumberAreaPaintEvent_fits_gutter (Geo := sample_geometry)
           40 17 0%Z 9 10 (mkQRect 0 100) sample_blocks 7 0%Z); cbn; lia.
Defined.

(* ===================================================================== *)
(** * Properties of the file menu *)
(* ===================================================================== *)

(** Runs the plumbing of a [Gui] computation. *)
Ltac gui_run :=
  cbv beta iota zeta delta
    [gui_bind gui_ret gui_emit gui_get gui_put gui_call gui_try_except
     core run_on read_file clear
     bind ret raise emit get put call try_except find_clause
     toPlainText setPlainText set_current_file_path setWindowTitle write_file
     YAMLEditor.show_error_message YAMLEditor.show_info_message
     EditorWindow.show_error_message
     outcome final trace gui_outcome gui_final gui_trace
     text_edit current_file_path windowTitle
     opt_str_truthy path_of is_Exception List.app List.map].

Section FileMenu.
Context `{Dialog : OpenDialog} `{Disk : ReadHost} `{Widget : TextWidget}.
Context `{Host : EditorHost} `{Save : SaveDialog}.
Local Open Scope gui_scope.

(** X6.  [open_file] is all or nothing.  When the file the user chose
    cannot be read, whatever the exception is, the call returns normally,
    the editor (buffer, path and title) is as before and one error dialog
    is shown; when the dialog is cancelled nothing happens at all.  So
    for [YAMLEditor.open_file], for [EditorWindow.open_file] with no
    argument and with a path as argument. *)
Theorem open_file_failure_atomic (ed : Editor) (e : PyExc) :
  read_text getOpenFileName = Raise e ->
  let shown :=
    if str_truthy getOpenFileName
    then [Core (FileOpenRead getOpenFileName); open_error_dialog e]
    else [] in
  YAMLEditorFile.open_file ed
  = Some (mkGuiRun (Ret tt) ed (OpenFileDialog "Open YAML File" :: shown))
  /\ EditorWindowFile.open_file None ed
     = Some (mkGuiRun (Ret tt) ed (OpenFileDialog "Open YAML File" :: shown))
  /\ (str_truthy getOpenFileName = true ->
      EditorWindowFile.open_file (Some getOpenFileName) ed
      = Some (mkGuiRun (Ret tt) ed shown)).
Proof.
  intros Hread shown. subst shown. unfold open_error_dialog.
  destruct ed as [text path title].
  unfold YAMLEditorFile.open_file, EditorWindowFile.open_file.
  destruct (str_truthy getOpenFileName) eqn:Hp.
  - gui_run. rewrite Hp. cbn [negb]. gui_run. rewrite Hp, Hread.
    repeat split; reflexivity.
  - gui_run. rewrite Hp. cbn [negb]. gui_run. rewrite Hp.
    repeat split; try reflexivity. discriminate.
Qed.

Lemma bind_get_run {St A} (k : St -> Eff St A) (s : St) :
  bind get k s = k s s.
Proof.
  unfold bind, get. destruct (k s s) as [[o s' t]|]; reflexivity.
Qed.

(** With a path, [save_file] writes the buffer there and reports a
    failure in a dialog; the editor stays as it is. *)
Lemma save_file_with_path (fuel : nat) (ed : Editor) :
  opt_str_truthy (current_file_path ed) = true ->
  let run :=
    Some (mkRun (Ret tt) ed
            (FileWrite (path_of (current_file_path ed)) (text_edit ed)
               :: save_error_dialog (path_of (current_file_path ed))
                    (text_edit ed))) in
  YAMLEditor.save_file (S fuel) ed = run
  /\ EditorWindow.save_file (S fuel) ed = run.
Proof.
  intros Hpath run. subst run. unfold save_error_dialog.
  destruct ed as [text path title]. cbn [current_file_path] in *.
  cbn [YAMLEditor.save_file EditorWindow.save_file].
  rewrite !bind_get_run. cbn [current_file_path]. rewrite Hpath.
  eff_run. destruct (write_text _ _); split; reflexivity.
Qed.

(** Without a path, [save_file] is [save_file_as]. *)
Lemma save_file_no_path (fuel : nat) (ed : Editor) :
  opt_str_truthy (current_file_path ed) = false ->
  YAMLEditor.save_file (S fuel) ed = YAMLEditor.save_file_as fuel ed
  /\ EditorWindow.save_file (S fuel) ed = EditorWindow.save_file_as fuel ed.
Proof.
  intros Hpath.
  cbn [YAMLEditor.save_file EditorWindow.save_file].
  rewrite !bind_get_run. rewrite Hpath. split; reflexivity.
Qed.

(** [save_file_as] with room for one call only is cut off when a path is
    chosen. *)
Lemma save_file_as_one (ed : Editor) :
  str_truthy getSaveFileName = true ->
  YAMLEditor.save_file_as 1 ed = None /\ EditorWindow.save_file_as 1 ed = None.
Proof.
  intros Hp. cbn [YAMLEditor.save_file_as EditorWindow.save_file_as
                  YAMLEditor.save_file EditorWindow.save_file].
  rewrite Hp. split; reflexivity.
Qed.

(** X9.  Saving never raises and never changes the buffer: whenever
    [save_file] or [save_file_as] (of [YAMLEditor] and of [EditorWindow])
    completes, it has returned normally, a write error having gone to a
    dialog, and the text of the editor is what it was. *)
Theorem save_keeps_buffer (fuel : nat) (ed : Editor) (r : Run Editor unit) :
  YAMLEditor.save_file fuel ed = Some r
  \/ YAMLEditor.save_file_as fuel ed = Some r
  \/ EditorWindow.save_file fuel ed = Some r
  \/ EditorWindow.save_file_as fuel ed = Some r ->
  outcome r = Ret tt /\ text_edit (final r) = text_edit ed.
Proof.
  assert (Has : forall n r,
             YAMLEditor.save_file_as n ed = Some r
             \/ EditorWindow.save_file_as n ed = Some r ->
             outcome r = Ret tt /\ text_edit (final r) = text_edit ed).
  { intros n r' Hrun. destruct n as [|[|n]].
    - destruct Hrun; discriminate.
    - destruct (str_truthy getSaveFileName) eqn:Hp.
      + destruct (save_file_as_one ed Hp) as [Hy Hw].
        rewrite Hy, Hw in Hrun. destruct Hrun; discriminate.
      + destruct (save_file_as_cancelled 0 ed Hp) as [Hy Hw].
        rewrite Hy, Hw in Hrun.
        destruct Hrun as [Hrun | Hrun]; injection Hrun as <-; auto.
    - destruct (str_truthy getSaveFileName) eqn:Hp.
      + rewrite YAMLEditor_save_file_as_run, EditorWindow_save_file_as_run
          in Hrun by exact Hp.
        destruct Hrun as [Hrun | Hrun]; injection Hrun as <-; auto.
      + destruct (save_file_as_cancelled (S n) ed Hp) as [Hy Hw].
        rewrite Hy, Hw in Hrun.
        destruct Hrun as [Hrun | Hrun]; injection Hrun as <-; auto. }
  intros [Hrun | [Hrun | [Hrun | Hrun]]]; eauto.
  - destruct fuel as [|n]; [discriminate|].
    destruct (opt_str_truthy (current_file_path ed)) eqn:Hpath.
    + destruct (save_file_with_path n ed Hpath) as [Hy _].
      rewrite Hy in Hrun. injection Hrun as <-. auto.
    + destruct (save_file_no_path n ed Hpath) as [Hy _].
      rewrite Hy in Hrun. eauto.
  - destruct fuel as [|n]; [discriminate|].
    destruct (opt_str_truthy (current_file_path ed)) eqn:Hpath.
    + destruct (save_file_with_path n ed Hpath) as [_ Hw].
      rewrite Hw in Hrun. injection Hrun as <-. auto.
    + destruct (save_file_no_path n ed Hpath) as [_ Hw].
      rewrite Hw in Hrun. eauto.
Qed.

(** X7.  Open, then save, writes back what the widget holds of the file.
    When the user chooses a file that can be read, [open_file] followed by
    [save_file] makes one write, to exactly the path chosen, of exactly
    the text the widget gives back for the content read, and shows no
    save dialog; the editor holds that text, that path and the title of
    the file.  So what is written is the content read whenever the widget
    holds it as it is. *)
Theorem open_then_save_writes_back (fuel : nat) (ed : Editor)
        (content : string) :
  str_truthy getOpenFileName = true ->
  read_text getOpenFileName = Ret content ->
  let path := getOpenFileName in
  let held := plain_text_of content in
  let events :=
    ([OpenFileDialog "Open YAML File"; Core (FileOpenRead path);
      Core (SetPlainText content); Core (FileWrite path held)]
     ++ map Core (save_error_dialog path held))%list in
  ((YAMLEditorFile.open_file ;; core (YAMLEditor.save_file (S fuel))) ed
   = Some (mkGuiRun (Ret tt) (opened "YAML Editor - " path content) events)
   /\ (EditorWindowFile.open_file None ;;
       core (EditorWindow.save_file (S fuel))) ed
      = Some (mkGuiRun (Ret tt) (opened "Editor - " path content) events))
  /\ (held = content -> gui_writes events = [(path, content)]).
Proof.
  intros Hp Hread path held events. subst path held events.
  assert (Hy : forall title,
             opt_str_truthy
               (current_file_path (opened title getOpenFileName content))
             = true) by (intros; exact Hp).
  destruct (save_file_with_path fuel _ (Hy "YAML Editor - ")) as [Hsy _].
  destruct (save_file_with_path fuel _ (Hy "Editor - ")) as [_ Hsw].
  unfold opened in *. cbn [current_file_path text_edit path_of] in Hsy, Hsw.
  destruct ed as [text path title].
  unfold YAMLEditorFile.open_file, EditorWindowFile.open_file.
  split; [split|].
  - unfold gui_bind at 1.
    replace ((gui_emit (OpenFileDialog "Open YAML File");; _) _)
      with (Some (mkGuiRun (Ret tt)
                    (mkEditor (plain_text_of content) (Some getOpenFileName)
                       ("YAML Editor - " ++ getOpenFileName))
                    [OpenFileDialog "Open YAML File";
                     Core (FileOpenRead getOpenFileName);
                     Core (SetPlainText content)])).
    2:{ gui_run. rewrite Hp, Hread. reflexivity. }
    unfold core. rewrite Hsy. reflexivity.
  - unfold gui_bind at 1.
    replace ((_ <- _ ;; _) _)
      with (Some (mkGuiRun (Ret tt)
                    (mkEditor (plain_text_of content) (Some getOpenFileName)
                       ("Editor - " ++ getOpenFileName))
                    [OpenFileDialog "Open YAML File";
                     Core (FileOpenRead getOpenFileName);
                     Core (SetPlainText content)])).
    2:{ gui_run. cbn [negb]. gui_run. rewrite Hp, Hread. reflexivity. }
    unfold core. rewrite Hsw. reflexivity.
  - intros ->. unfold save_error_dialog. cbn.
    destruct (write_text _ _); reflexivity.
Qed.

End FileMenu.

Section NewFile.
Context `{Host : EditorHost} `{Save : SaveDialog}.
Local Open Scope gui_scope.

(** [new_file], of either class: the buffer is emptied, the path is
    forgotten. *)
Lemma new_file_run (ed : Editor) :
  YAMLEditorFile.new_file ed
  = Some (mkGuiRun (Ret tt)
            (mkEditor EmptyString None "YAML Editor - New File")
            [TextCleared])
  /\ EditorWindowFile.new_file ed
     = Some (mkGuiRun (Ret tt)
               (mkEditor EmptyString None "YAML Editor - New File")
               [TextCleared]).
Proof. destruct ed as [text path title]. split; reflexivity. Qed.

(** X8.  After New, Save does not go to the file that was open.
    [new_file] followed by [save_file] asks for a path; when the dialog
    is cancelled nothing is written and the editor stays an empty new
    file; when a path is chosen the one write is the empty buffer, to that
    path with its extension. *)
Theorem new_then_save_asks (fuel : nat) (ed : Editor) :
  let answer := getSaveFileName in
  let path := saved_path answer in
  let expected (title_prefix : string) :=
    if str_truthy answer then
      Some (mkGuiRun (Ret tt)
              (mkEditor EmptyString (Some path) (title_prefix ++ path))
              (TextCleared :: Core SaveFileDialog
                 :: Core (FileWrite path EmptyString)
                 :: map Core (save_error_dialog path EmptyString)))
    else
      Some (mkGuiRun (Ret tt)
              (mkEditor EmptyString None "YAML Editor - New File")
              [TextCleared; Core SaveFileDialog]) in
  (YAMLEditorFile.new_file ;;
   core (YAMLEditor.save_file (S (S (S fuel))))) ed
  = expected "YAML Editor - "
  /\ (EditorWindowFile.new_file ;;
      core (EditorWindow.save_file (S (S (S fuel))))) ed
     = expected "Editor - ".
Proof.
  intros answer path expected. subst answer path expected.
  destruct (new_file_run ed) as [Hny Hnw].
  unfold gui_bind. rewrite Hny, Hnw. unfold core.
  destruct (save_file_no_path (S (S fuel))
              (mkEditor EmptyString None "YAML Editor - New File")
              eq_refl) as [-> ->].
  destruct (str_truthy getSaveFileName) eqn:Hp.
  - rewrite YAMLEditor_save_file_as_run, EditorWindow_save_file_as_run
      by exact Hp.
    split; reflexivity.
  - destruct (save_file_as_cancelled (S fuel)
                (mkEditor EmptyString None "YAML Editor - New File") Hp)
      as [-> ->].
    split; reflexivity.
Qed.

End NewFile.

(* ===================================================================== *)
(** * Further properties of [format_yaml] *)
(* ===================================================================== *)

Section FormatMore.
Context `{Lib : YamlLibrary} `{Widget : TextWidget}.

(** X10.  Formatting stays in the buffer: [format_yaml] (of either
    class) never reads or writes a file, never asks for a path, and
    leaves the current file path and the window title as they are. *)
Theorem format_yaml_no_file_access (ed : Editor) (r : Run Editor unit) :
  YAMLEditor.format_yaml ed = Some r \/ EditorWindow.format_yaml ed = Some r ->
  forallb (fun ev => negb (is_file_event ev)) (trace r) = true
  /\ current_file_path (final r) = current_file_path ed
  /\ windowTitle (final r) = windowTitle ed.
Proof.
  rewrite YAMLEditor_format_yaml_run, EditorWindow_format_yaml_run.
  destruct (all_space (text_edit ed)).
  - intros [Hr | Hr]; injection Hr as <-; repeat split.
  - destruct (round_trip (text_edit ed)) as [t|e].
    + intros [Hr | Hr]; injection Hr as <-; repeat split.
    + destruct (is_YAMLError e);
        intros [Hr | Hr]; injection Hr as <-; repeat split.
Qed.

(** X11.  No partial formatting: [format_yaml] (of either class) either
    gives the widget, in one write, the text the library dumped for the
    old buffer, and then the result is [Formatted] with that text and the
    buffer is what the widget holds of it; or it writes nothing to the
    widget, the whole editor is as it was and the result is not
    [Formatted]. *)
Theorem format_yaml_all_or_nothing (ed : Editor) (r : Run Editor unit) :
  YAMLEditor.format_yaml ed = Some r \/ EditorWindow.format_yaml ed = Some r ->
  (exists t,
      round_trip (text_edit ed) = Ret t
      /\ format_result r = Formatted t
      /\ trace r = [SetPlainText t]
      /\ final r = mkEditor (plain_text_of t) (current_file_path ed)
                     (windowTitle ed))
  \/ (final r = ed
      /\ (forall t, ~ In (SetPlainText t) (trace r))
      /\ forall t, format_result r <> Formatted t).
Proof.
  rewrite YAMLEditor_format_yaml_run, EditorWindow_format_yaml_run.
  destruct (all_space (text_edit ed)).
  - intros [Hr | Hr]; injection Hr as <-; right; repeat split;
      try (intros t; discriminate);
      try (intros t [Hin | []]; discriminate); intros t [].
  - destruct (round_trip (text_edit ed)) as [t|e].
    + intros [Hr | Hr]; injection Hr as <-; left; exists t;
        repeat split.
    + destruct (is_YAMLError e);
        intros [Hr | Hr]; injection Hr as <-; right; repeat split;
        try (intros t; discriminate);
        try (intros t [Hin | []]; discriminate); intros t [].
Qed.

(** X12.  The two classes format alike, whatever text widgets they are
    on (a [QTextEdit] filled by [setText] in edit_1.py, a
    [QPlainTextEdit] filled by [setPlainText] in edit_linenum.py and
    main1.py): on every buffer, [YAMLEditor.format_yaml] on one widget
    and [EditorWindow.format_yaml] on another end the same way, hand the
    same text to the widget and leave the same path and title; they
    differ in their dialogs only, and the editors they leave are the
    same when the two widgets hold the dumped text alike. *)
Theorem format_yaml_variants_agree (W1 W2 : TextWidget) (ed : Editor) :
  exists r1 r2,
    YAMLEditor.format_yaml (Widget := W1) ed = Some r1
    /\ EditorWindow.format_yaml (Widget := W2) ed = Some r2
    /\ outcome r1 = outcome r2
    /\ filter is_buffer_write (trace r1) = filter is_buffer_write (trace r2)
    /\ current_file_path (final r1) = current_file_path (final r2)
    /\ windowTitle (final r1) = windowTitle (final r2)
    /\ ((forall t, round_trip (text_edit ed) = Ret t ->
                   @plain_text_of W1 t = @plain_text_of W2 t) ->
        final r1 = final r2).
Proof.
  rewrite (YAMLEditor_format_yaml_run (Widget := W1)),
    (EditorWindow_format_yaml_run (Widget := W2)).
  do 2 eexists. split; [reflexivity|]. split; [reflexivity|].
  destruct (all_space (text_edit ed)); [repeat split|].
  destruct (round_trip (text_edit ed)) as [t|e].
  - repeat split. intros Hsame. cbn [final].
    rewrite (Hsame t eq_refl). reflexivity.
  - destruct (is_YAMLError e); repeat split.
Qed.

End FormatMore.

(* ===================================================================== *)
(** * Further properties of [check_connection] *)
(* ===================================================================== *)

Section CheckMore.
Context `{Host : ConfigHost} `{Out : Console}.

(** [check_connection], result and trace. *)
Lemma check_connection_run (tok cfg : string) :
  check_connection tok cfg tt
  = Some (mkRun (Ret (validate tok cfg)) tt (check_trace tok cfg)).
Proof.
  check_vocabulary. check_run.
  destruct (str_truthy tok); cbn [negb orb]; [|reflexivity].
  destruct (os_path_exists tok); cbn [negb]; [|reflexivity].
  destruct (str_truthy cfg); cbn [negb orb]; [|reflexivity].
  destruct (os_path_exists cfg); cbn [negb]; [|reflexivity].
  destruct (print_outcome ("Attempting to read token from: " ++ tok))
    as [[]|[?|? ?]]; [|reflexivity|reflexivity].
  destruct (open_r tok) as [f|[?|? ?]]; [|reflexivity|reflexivity].
  destruct (safe_load f) as [td|[?|? ?]]; [|reflexivity|reflexivity].
  destruct (truthy td); cbn [negb]; [|reflexivity].
  destruct (py_in qualtrics_token_name td) as [[|]|[?|? ?]]; cbn [negb];
    [|reflexivity|reflexivity|reflexivity].
  destruct (print_outcome ("Attempting to read config from: " ++ cfg))
    as [[]|[?|? ?]]; [|reflexivity|reflexivity].
  destruct (open_r cfg) as [g|[?|? ?]]; [|reflexivity|reflexivity].
  destruct (safe_load g) as [cd|[?|? ?]]; [|reflexivity|reflexivity].
  destruct (truthy cd); cbn [negb]; [|reflexivity].
  destruct (py_in "project_id" cd) as [[|]|[?|? ?]]; cbn [negb];
    [|reflexivity|reflexivity|reflexivity].
  destruct (print_outcome
              "--- Simulation: Pretending to make an API call... ---")
    as [[]|[?|? ?]]; [|reflexivity|reflexivity].
  destruct (print_outcome "Successfully connected to Qualtrics API.")
    as [[]|[?|? ?]]; reflexivity.
Qed.

Lemma failure_not_success (e : PyExc) : fst (failure e) = false.
Proof. unfold failure. destruct (is_YAMLError e); reflexivity. Qed.

(** The four prints return when each of them does. *)
Lemma prints_return_iff (tok cfg : string) :
  prints_return tok cfg <->
  print_outcome (token_notice_text tok) = Ret tt
  /\ print_outcome (config_notice_text cfg) = Ret tt
  /\ print_outcome simulation_notice_text = Ret tt
  /\ print_outcome connected_notice_text = Ret tt.
Proof.
  unfold prints_return, notices. split.
  - intros H. repeat split; apply H; cbn; auto.
  - intros (H1 & H2 & H3 & H4) text [<-|[<-|[<-|[<-|[]]]]]; assumption.
Qed.

(** [validate] says yes exactly when both paths are there, both files
    have their keys and the four prints return. *)
Lemma validate_success_iff (tok cfg : string) :
  fst (validate tok cfg) = true <->
  path_unset_or_absent tok = false
  /\ path_unset_or_absent cfg = false
  /\ has_key tok qualtrics_token_name
  /\ has_key cfg "project_id"
  /\ prints_return tok cfg.
Proof.
  rewrite prints_return_iff.
  unfold validate, validate_file, after_print, has_key.
  destruct (path_unset_or_absent tok).
  { split; [discriminate | intros (H & _); discriminate]. }
  destruct (path_unset_or_absent cfg).
  { split; [discriminate | intros (_ & H & _); discriminate]. }
  destruct (print_outcome (token_notice_text tok)) as [[]|e].
  2:{ rewrite failure_not_success. split; [discriminate|].
      intros (_ & _ & _ & _ & H & _); discriminate. }
  destruct (load_outcome tok) as [td|e].
  2:{ rewrite failure_not_success. split; [discriminate|].
      intros (_ & _ & (d & H & _) & _); discriminate. }
  destruct (lacks_key qualtrics_token_name td) as [[|]|e] eqn:Hkt.
  1:{ split; [discriminate|].
      intros (_ & _ & (d & H & H') & _). injection H as <-. congruence. }
  2:{ rewrite failure_not_success. split; [discriminate|].
      intros (_ & _ & (d & H & H') & _). injection H as <-. congruence. }
  destruct (print_outcome (config_notice_text cfg)) as [[]|e].
  2:{ rewrite failure_not_success. split; [discriminate|].
      intros (_ & _ & _ & _ & _ & H & _); discriminate. }
  destruct (load_outcome cfg) as [cd|e].
  2:{ rewrite failure_not_success. split; [discriminate|].
      intros (_ & _ & _ & (d & H & _) & _); discriminate. }
  destruct (lacks_key "project_id" cd) as [[|]|e] eqn:Hkc.
  1:{ split; [discriminate|].
      intros (_ & _ & _ & (d & H & H') & _). injection H as <-.
      congruence. }
  2:{ rewrite failure_not_success. split; [discriminate|].
      intros (_ & _ & _ & (d & H & H') & _). injection H as <-.
      congruence. }
  destruct (print_outcome simulation_notice_text) as [[]|e].
  2:{ rewrite failure_not_success. split; [discriminate|].
      intros (_ & _ & _ & _ & _ & _ & H & _); discriminate. }
  destruct (print_outcome connected_notice_text) as [[]|e].
  2:{ rewrite failure_not_success. split; [discriminate|].
      intros (_ & _ & _ & _ & _ & _ & _ & H); discriminate. }
  split; [|reflexivity].
  intros _. repeat split; auto; eexists; eauto.
Qed.

(** The success message goes with success only. *)
Lemma validate_success_message (tok cfg : string) :
  fst (validate tok cfg) = true <-> snd (validate tok cfg) = msg_success.
Proof.
  assert (Hf : forall e,
             fst (failure e) = true <-> snd (failure e) = msg_success).
  { intros e. unfold failure. destruct (is_YAMLError e);
      split; discriminate. }
  unfold validate, validate_file, after_print.
  destruct (path_unset_or_absent tok); [split; discriminate|].
  destruct (path_unset_or_absent cfg); [split; discriminate|].
  destruct (print_outcome (token_notice_text tok)) as [[]|e]; [|apply Hf].
  destruct (load_outcome tok) as [td|e]; [|apply Hf].
  destruct (lacks_key qualtrics_token_name td) as [[|]|e];
    [split; discriminate | | apply Hf].
  destruct (print_outcome (config_notice_text cfg)) as [[]|e]; [|apply Hf].
  destruct (load_outcome cfg) as [cd|e]; [|apply Hf].
  destruct (lacks_key "project_id" cd) as [[|]|e];
    [split; discriminate | | apply Hf].
  destruct (print_outcome simulation_notice_text) as [[]|e]; [|apply Hf].
  destruct (print_outcome connected_notice_text) as [[]|e]; [|apply Hf].
  split; reflexivity.
Qed.

(** X13.  Success means both files passed and every print went through.
    [check_connection] returns [True] exactly when both paths are set and
    exist, each file loads to data that has its key
    ([QUALTRICS_APITOKEN], [project_id]) and none of the four prints
    raises; the message is then the fixed success message, and no
    failure carries it. *)
Theorem check_connection_success_iff (tok cfg : string) :
  exists success message t,
    check_connection tok cfg tt
    = Some (mkRun (Ret (success, message)) tt t)
    /\ (success = true <->
        path_unset_or_absent tok = false
        /\ path_unset_or_absent cfg = false
        /\ has_key tok qualtrics_token_name
        /\ has_key cfg "project_id"
        /\ prints_return tok cfg)
    /\ (success = true <-> message = msg_success).
Proof.
  rewrite check_connection_run.
  pose proof (validate_success_iff tok cfg) as Hiff.
  pose proof (validate_success_message tok cfg) as Hmsg.
  destruct (validate tok cfg) as [success message].
  exists success, message, (check_trace tok cfg).
  split; [reflexivity|]. split; assumption.
Qed.

(** X14.  [check_connection] opens nothing but the two files it is
    given: no file at all, the token file alone, or the token file and
    then the config file, each once; and the config file only after the
    token file has loaded with its key. *)
Theorem check_connection_opens (tok cfg : string) :
  exists r,
    check_connection tok cfg tt = Some r
    /\ (opened_paths (trace r) = []
        \/ opened_paths (trace r) = [tok]
        \/ (opened_paths (trace r) = [tok; cfg]
            /\ has_key tok qualtrics_token_name)).
Proof.
  rewrite check_connection_run. eexists. split; [reflexivity|].
  cbn [trace].
  unfold check_trace, file_trace, print_trace, probes, token_notice, has_key.
  destruct (path_unset_or_absent tok).
  { left. destruct (str_truthy tok); reflexivity. }
  destruct (path_unset_or_absent cfg).
  { left. destruct (str_truthy cfg); reflexivity. }
  cbn [opened_paths].
  destruct (print_outcome (token_notice_text tok)) as [[]|e];
    [|left; reflexivity].
  cbn [opened_paths].
  destruct (load_outcome tok) as [td|e]; [|right; left; reflexivity].
  destruct (lacks_key qualtrics_token_name td) as [[|]|e] eqn:Hk;
    [right; left; reflexivity | | right; left; reflexivity].
  cbn [opened_paths].
  destruct (print_outcome (config_notice_text cfg)) as [[]|e];
    [|right; left; reflexivity].
  right. right. split; [|eexists; eauto].
  cbn [opened_paths].
  destruct (load_outcome cfg) as [cd|e]; [|reflexivity].
  destruct (lacks_key "project_id" cd) as [[|]|e]; try reflexivity.
  cbn [opened_paths].
  destruct (print_outcome simulation_notice_text) as [[]|e];
    [|reflexivity].
  destruct (print_outcome connected_notice_text) as [[]|e]; reflexivity.
Qed.

End CheckMore.

(* ===================================================================== *)
(** * Properties of the launcher *)
(* ===================================================================== *)

(** Runs the plumbing of a launcher method. *)
Ltac launcher_run :=
  cbv beta iota zeta delta
    [LauncherWindow.load_settings LauncherWindow.save_settings
     LauncherWindow.init LauncherWindow.fresh LauncherWindow.closeEvent
     LauncherWindow.browse_token_file LauncherWindow.browse_project_file
     LauncherWindow.set_token_file LauncherWindow.set_project_file
     LauncherWindow.settings_setValue LauncherWindow.editor_windows_append
     gui_bind gui_ret gui_emit gui_get gui_put gui_call
     token_file_path_edit edit_token_btn project_config_path_edit
     edit_project_btn editor_windows settings
     gui_outcome gui_final gui_trace List.app].

Section LauncherProperties.
Context `{Store : SettingsStore} `{Disk : ReadHost} `{Files : ConfigHost}.
Context `{Dialog : OpenDialog} `{Widget : TextWidget} `{Out : Console}.
Local Open Scope gui_scope.

(** [save_settings] stores the two paths and does nothing else. *)
Lemma save_settings_run (w : Launcher) :
  LauncherWindow.save_settings w
  = Some (mkGuiRun (Ret tt)
            (mkLauncher (token_file_path_edit w) (edit_token_btn w)
               (project_config_path_edit w) (edit_project_btn w)
               (editor_windows w)
               (setValue
                  (setValue (settings w) "qualtrics_token_path"
                     (token_file_path_edit w))
                  "project_config_path" (project_config_path_edit w)))
            []).
Proof. destruct w. reflexivity. Qed.

(** [load_settings] fills a line edit, and enables its button, for each
    path the store has. *)
Lemma load_settings_run (w : Launcher) :
  let token_path :=
    value (settings w) "qualtrics_token_path" EmptyString in
  let project_path :=
    value (settings w) "project_config_path" EmptyString in
  LauncherWindow.load_settings w
  = Some (mkGuiRun (Ret tt)
            (mkLauncher
               (if str_truthy token_path then token_path
                else token_file_path_edit w)
               (if str_truthy token_path then true else edit_token_btn w)
               (if str_truthy project_path then project_path
                else project_config_path_edit w)
               (if str_truthy project_path then true else edit_project_btn w)
               (editor_windows w) (settings w))
            []).
Proof.
  destruct w as [tok tb cfg cb ws s]. launcher_run.
  destruct (str_truthy (value s "qualtrics_token_path" EmptyString));
    launcher_run;
    destruct (str_truthy (value s "project_config_path" EmptyString));
    reflexivity.
Qed.

(** [EditorWindow(path)] for a path that is true: the file is read into
    a new window, or the window stays blank and an error is shown. *)
Lemma EditorWindow_init_run (path : string) (ed : Editor) :
  str_truthy path = true ->
  EditorWindowFile.init (Some path) ed
  = Some (mkGuiRun (Ret tt) (window_for path) (window_events path)).
Proof.
  intros Hp. unfold EditorWindowFile.init, EditorWindowFile.open_file,
    window_for, window_events, opened, open_error_dialog.
  cbn [opt_str_truthy]. rewrite Hp. cbn [negb]. gui_run. rewrite Hp.
  destruct (read_text path); reflexivity.
Qed.

(** [open_editor_for_path]: a warning for the empty path, one more
    window otherwise. *)
Lemma open_editor_for_path_run (path : string) (w : Launcher) :
  LauncherWindow.open_editor_for_path path w
  = Some (if str_truthy path then
            mkGuiRun (Ret tt)
              (mkLauncher (token_file_path_edit w) (edit_token_btn w)
                 (project_config_path_edit w) (edit_project_btn w)
                 (editor_windows w ++ [window_for path])%list (settings w))
              (window_events path)
          else
            mkGuiRun (Ret tt) w
              [MsgWarning "No File" "Please select a file first."]).
Proof.
  unfold LauncherWindow.open_editor_for_path.
  destruct (str_truthy path) eqn:Hp; cbn [negb]; [|reflexivity].
  unfold gui_bind, run_on. rewrite (EditorWindow_init_run path _ Hp).
  destruct w. cbn. rewrite app_nil_r. reflexivity.
Qed.

(** [run_check_connection]: one message box, the launcher as before. *)
Lemma run_check_connection_run (w : Launcher) :
  let result :=
    validate (token_file_path_edit w) (project_config_path_edit w) in
  LauncherWindow.run_check_connection w
  = Some (mkGuiRun (Ret tt) w
            (map Core (check_trace (token_file_path_edit w)
                         (project_config_path_edit w))
             ++ [connection_box result])%list).
Proof.
  intros result. subst result.
  unfold LauncherWindow.run_check_connection, connection_box.
  unfold gui_bind at 1, gui_get at 1.
  unfold gui_bind, run_on, core. rewrite check_connection_run.
  cbn [outcome final trace fst snd].
  destruct (validate _ _) as [[|] message]; cbn; reflexivity.
Qed.

(** The two browse methods: nothing on a cancelled dialog, the path
    set and both paths stored otherwise. *)
Lemma browse_token_file_run (w : Launcher) :
  LauncherWindow.browse_token_file w
  = Some (if str_truthy getOpenFileName then
            mkGuiRun (Ret tt)
              (mkLauncher getOpenFileName true
                 (project_config_path_edit w) (edit_project_btn w)
                 (editor_windows w)
                 (setValue
                    (setValue (settings w) "qualtrics_token_path"
                       getOpenFileName)
                    "project_config_path" (project_config_path_edit w)))
              [OpenFileDialog "Select Token File"]
          else mkGuiRun (Ret tt) w [OpenFileDialog "Select Token File"]).
Proof.
  destruct w. unfold LauncherWindow.browse_token_file.
  destruct (str_truthy getOpenFileName); reflexivity.
Qed.

Lemma browse_project_file_run (w : Launcher) :
  LauncherWindow.browse_project_file w
  = Some (if str_truthy getOpenFileName then
            mkGuiRun (Ret tt)
              (mkLauncher (token_file_path_edit w) (edit_token_btn w)
                 getOpenFileName true (editor_windows w)
                 (setValue
                    (setValue (settings w) "qualtrics_token_path"
                       (token_file_path_edit w))
                    "project_config_path" getOpenFileName))
              [OpenFileDialog "Select Project Config File"]
          else
            mkGuiRun (Ret tt) w
              [OpenFileDialog "Select Project Config File"]).
Proof.
  destruct w. unfold LauncherWindow.browse_project_file.
  destruct (str_truthy getOpenFileName); reflexivity.
Qed.

Lemma edit_file_run (w : Launcher) :
  LauncherWindow.edit_token_file w
  = LauncherWindow.open_editor_for_path (token_file_path_edit w) w
  /\ LauncherWindow.edit_project_file w
     = LauncherWindow.open_editor_for_path (project_config_path_edit w) w.
Proof.
  unfold LauncherWindow.edit_token_file, LauncherWindow.edit_project_file,
    gui_bind, gui_get.
  rewrite !open_editor_for_path_run.
  split; destruct (str_truthy _); reflexivity.
Qed.

(** A launcher started on a store. *)
Lemma init_run (store : Settings) (w0 : Launcher) :
  LauncherWindow.init store w0
  = LauncherWindow.load_settings (LauncherWindow.fresh store).
Proof.
  unfold LauncherWindow.init, gui_bind, gui_put.
  rewrite load_settings_run. reflexivity.
Qed.

(** Rewrites a [launcher_step] with the runs of the methods. *)
Ltac launcher_cases w H :=
  unfold launcher_step, LauncherWindow.closeEvent in H;
  destruct (edit_file_run w) as [Het Hep]; rewrite Het, Hep in H;
  clear Het Hep;
  rewrite load_settings_run, save_settings_run, browse_token_file_run,
    browse_project_file_run, !open_editor_for_path_run,
    run_check_connection_run in H;
  destruct H as [H|[H|[H|[H|[H|[H|[H|H]]]]]]]; injection H as <-.

(** X15.  An Edit button is enabled exactly when its line edit holds a
    path: so it is in a launcher that has just been started, on whatever
    settings, and no method of the launcher breaks it. *)
Theorem launcher_buttons_follow_paths :
  (forall store w0 r,
      LauncherWindow.init store w0 = Some r ->
      buttons_follow_paths (gui_final r))
  /\ (forall w r,
         buttons_follow_paths w -> launcher_step w r ->
         buttons_follow_paths (gui_final r)).
Proof.
  unfold buttons_follow_paths. split.
  - intros store w0 r Hr. rewrite init_run, load_settings_run in Hr.
    injection Hr as <-. cbn.
    destruct (str_truthy (value store "qualtrics_token_path" EmptyString))
      eqn:Ht;
      destruct (str_truthy (value store "project_config_path" EmptyString))
        eqn:Hc; auto.
  - intros w r [Ht Hc] Hstep. launcher_cases w Hstep;
      repeat match goal with
             | |- context [if ?c then _ else _] => destruct c eqn:?
             end;
      cbn; split; congruence.
Qed.

(** X16.  The launcher keeps its editor windows: no method raises, and
    none removes or replaces a window of the list; at most one window is
    added at its end. *)
Theorem launcher_keeps_windows (w : Launcher) (r : GuiRun Launcher unit) :
  launcher_step w r ->
  gui_outcome r = Ret tt
  /\ exists added,
       editor_windows (gui_final r) = (editor_windows w ++ added)%list
       /\ (List.length added <= 1)%nat.
Proof.
  intros Hstep. launcher_cases w Hstep;
    repeat match goal with
           | |- context [if ?c then _ else _] => destruct c eqn:?
           end;
    cbn; (split; [reflexivity|]);
    first [ exists []; rewrite app_nil_r; split; [reflexivity | cbn; lia]
          | eexists; split; [reflexivity | cbn; lia] ].
Qed.

End LauncherProperties.

Section LauncherSettings.
Context `{Store : SettingsStore} `{Disk : ReadHost} `{Files : ConfigHost}.
Context `{Dialog : OpenDialog} `{Widget : TextWidget} `{Out : Console}.

(** A launcher started on a store whose two keys hold [tok] and [cfg]
    shows these two paths. *)
Lemma init_shows_stored (store : Settings) (w0 : Launcher) (tok cfg : string) :
  value store "qualtrics_token_path" EmptyString = tok ->
  value store "project_config_path" EmptyString = cfg ->
  exists r,
    LauncherWindow.init store w0 = Some r
    /\ token_file_path_edit (gui_final r) = tok
    /\ project_config_path_edit (gui_final r) = cfg
    /\ editor_windows (gui_final r) = [].
Proof.
  intros Ht Hc. rewrite init_run, load_settings_run.
  eexists. split; [reflexivity|]. cbn. rewrite Ht, Hc.
  destruct tok, cfg; repeat split.
Qed.

(** What the two writes of [save_settings] leave in a lawful store. *)
Lemma stored_paths (s : Settings) (tok cfg : string) :
  store_laws ->
  let s' := setValue (setValue s "qualtrics_token_path" tok)
              "project_config_path" cfg in
  value s' "qualtrics_token_path" EmptyString = tok
  /\ value s' "project_config_path" EmptyString = cfg.
Proof.
  intros [Hsame Hother]. cbn. split.
  - rewrite Hother by discriminate. apply Hsame.
  - apply Hsame.
Qed.

(** X17.  The paths survive a restart.  On a store that reads back what
    was set, after [save_settings] or [closeEvent] a launcher started on
    the settings left behind shows the two paths of the launcher that
    saved them, and no editor window. *)
Theorem settings_round_trip (w w0 : Launcher) (r : GuiRun Launcher unit) :
  store_laws ->
  LauncherWindow.save_settings w = Some r
  \/ LauncherWindow.closeEvent w = Some r ->
  exists r',
    LauncherWindow.init (settings (gui_final r)) w0 = Some r'
    /\ token_file_path_edit (gui_final r') = token_file_path_edit w
    /\ project_config_path_edit (gui_final r') = project_config_path_edit w
    /\ editor_windows (gui_final r') = [].
Proof.
  intros Hlaws Hrun. unfold LauncherWindow.closeEvent in Hrun.
  rewrite save_settings_run in Hrun.
  assert (Hr : r = mkGuiRun (Ret tt)
                     (mkLauncher (token_file_path_edit w) (edit_token_btn w)
                        (project_config_path_edit w) (edit_project_btn w)
                        (editor_windows w)
                        (setValue
                           (setValue (settings w) "qualtrics_token_path"
                              (token_file_path_edit w))
                           "project_config_path"
                           (project_config_path_edit w))) [])
    by (destruct Hrun as [H | H]; injection H as <-; reflexivity).
  subst r. cbn [gui_final settings].
  destruct (stored_paths (settings w) (token_file_path_edit w)
              (project_config_path_edit w) Hlaws) as [Ht Hc].
  apply init_shows_stored; assumption.
Qed.

(** X18.  A path chosen with Browse is stored at once.  On a store that
    reads back what was set, after [browse_token_file] or
    [browse_project_file] with a path chosen in the dialog, a launcher
    started on the settings left behind shows the chosen path in its line
    edit and the other path as the browsing launcher had it. *)
Theorem browse_is_persisted (w w0 : Launcher) :
  store_laws ->
  str_truthy getOpenFileName = true ->
  (exists r r',
      LauncherWindow.browse_token_file w = Some r
      /\ LauncherWindow.init (settings (gui_final r)) w0 = Some r'
      /\ token_file_path_edit (gui_final r') = getOpenFileName
      /\ project_config_path_edit (gui_final r')
         = project_config_path_edit w)
  /\ (exists r r',
         LauncherWindow.browse_project_file w = Some r
         /\ LauncherWindow.init (settings (gui_final r)) w0 = Some r'
         /\ token_file_path_edit (gui_final r') = token_file_path_edit w
         /\ project_config_path_edit (gui_final r') = getOpenFileName).
Proof.
  intros Hlaws Hp.
  rewrite browse_token_file_run, browse_project_file_run, Hp. split.
  - destruct (stored_paths (settings w) getOpenFileName
                (project_config_path_edit w) Hlaws) as [Ht Hc].
    destruct (init_shows_stored _ w0 _ _ Ht Hc) as (r' & Hr' & H1 & H2 & _).
    eexists. exists r'. split; [reflexivity|]. cbn [gui_final settings].
    auto.
  - destruct (stored_paths (settings w) (token_file_path_edit w)
                getOpenFileName Hlaws) as [Ht Hc].
    destruct (init_shows_stored _ w0 _ _ Ht Hc) as (r' & Hr' & H1 & H2 & _).
    eexists. exists r'. split; [reflexivity|]. cbn [gui_final settings].
    auto.
Qed.

(** X19.  An enabled Edit button always opens a window.  In a launcher
    whose buttons follow its paths, [edit_token_file] set off by an
    enabled button shows no warning, reads the token file once and adds
    one window: the file's content under its path when it can be read, a
    blank window after an error dialog when it cannot.  The same for
    [edit_project_file]. *)
Theorem enabled_edit_opens_window (w : Launcher) :
  buttons_follow_paths w ->
  (edit_token_btn w = true ->
   let path := token_file_path_edit w in
   LauncherWindow.edit_token_file w
   = Some (mkGuiRun (Ret tt)
             (mkLauncher path true (project_config_path_edit w)
                (edit_project_btn w)
                (editor_windows w ++ [window_for path])%list (settings w))
             (window_events path)))
  /\ (edit_project_btn w = true ->
      let path := project_config_path_edit w in
      LauncherWindow.edit_project_file w
      = Some (mkGuiRun (Ret tt)
                (mkLauncher (token_file_path_edit w) (edit_token_btn w)
                   path true
                   (editor_windows w ++ [window_for path])%list (settings w))
                (window_events path))).
Proof.
  intros [Ht Hc]. destruct (edit_file_run w) as [-> ->].
  rewrite !open_editor_for_path_run.
  split; intros Hb; cbn zeta.
  - rewrite <- Ht, Hb. reflexivity.
  - rewrite <- Hc, Hb. reflexivity.
Qed.

(** X20.  The connection check ends in one message box and leaves the
    launcher alone.  [run_check_connection] shows no box before its last
    event; that event is the information box with the success message
    exactly when both paths are set and exist, both files have their
    keys and none of the four prints of [check_connection] raises, and
    otherwise a warning box titled Connection Failed. *)
Theorem run_check_connection_reports (w : Launcher) :
  let tok := token_file_path_edit w in
  let cfg := project_config_path_edit w in
  exists before box,
    LauncherWindow.run_check_connection w
    = Some (mkGuiRun (Ret tt) w (before ++ [box])%list)
    /\ forallb (fun ev => negb (is_message_box ev)) before = true
    /\ (path_unset_or_absent tok = false
        /\ path_unset_or_absent cfg = false
        /\ has_key tok qualtrics_token_name
        /\ has_key cfg "project_id"
        /\ prints_return tok cfg <->
        box = Core (MsgInformation "Connection Success" msg_success))
    /\ (box = Core (MsgInformation "Connection Success" msg_success)
        \/ exists message, box = MsgWarning "Connection Failed" message).
Proof.
  intros tok cfg. subst tok cfg.
  rewrite run_check_connection_run. cbn zeta.
  do 2 eexists. split; [reflexivity|]. split.
  - unfold check_trace, file_trace, print_trace, probes, token_notice.
    repeat match goal with
           | |- context [if ?c then _ else _] => destruct c
           | |- context [match ?c with _ => _ end] => destruct c
           end; reflexivity.
  - rewrite <- validate_success_iff.
    pose proof (validate_success_message (token_file_path_edit w)
                  (project_config_path_edit w)) as Hmsg.
    unfold connection_box.
    destruct (validate _ _) as [[|] message]; cbn [fst snd] in *.
    + assert (message = msg_success) as -> by (apply Hmsg; reflexivity).
      split; [split; reflexivity | left; reflexivity].
    + split; [split; discriminate | right; eexists; reflexivity].
Qed.

(** X21.  The first start.  On settings that hold neither path, a
    launcher that is started and asked to check the connection touches no
    file: its only event is the warning that the token file is not
    set. *)
Theorem first_start_check (store : Settings) (w0 : Launcher) :
  value store "qualtrics_token_path" EmptyString = EmptyString ->
  value store "project_config_path" EmptyString = EmptyString ->
  (LauncherWindow.init store ;; LauncherWindow.run_check_connection)%gui w0
  = Some (mkGuiRun (Ret tt) (LauncherWindow.fresh store)
            [MsgWarning "Connection Failed" msg_token_not_found]).
Proof.
  intros Ht Hc. unfold gui_bind at 1.
  rewrite init_run, load_settings_run. cbn zeta.
  cbn [LauncherWindow.fresh settings]. rewrite Ht, Hc. cbn [str_truthy].
  rewrite run_check_connection_run. reflexivity.
Qed.

End LauncherSettings.

(* ===================================================================== *)
(** * The further properties on the sample hosts *)
(* ===================================================================== *)

Section FurtherSamples.
#[local] Existing Instance sample_widget.
#[local] Existing Instance sample_console.

Lemma open_file_failure_atomic_witness :
  @read_text sample_reader "missing.yaml"
  = Raise (OtherException "FileNotFoundError"
             "[Errno 2] No such file or directory")
  /\ YAMLEditorFile.open_file (Dialog := missing_open_dialog)
       (mkEditor "a: 1" (Some "old.yaml") "YAML Editor - old.yaml")
     = Some (mkGuiRun (Ret tt)
               (mkEditor "a: 1" (Some "old.yaml") "YAML Editor - old.yaml")
               [OpenFileDialog "Open YAML File";
                Core (FileOpenRead "missing.yaml");
                open_error_dialog
                  (OtherException "FileNotFoundError"
                     "[Errno 2] No such file or directory")]).
Proof.
  split; [reflexivity|].
  apply (open_file_failure_atomic (Dialog := missing_open_dialog)
           (Disk := sample_reader)
           (mkEditor "a: 1" (Some "old.yaml") "YAML Editor - old.yaml")
           (OtherException "FileNotFoundError"
              "[Errno 2] No such file or directory")).
  reflexivity.
Defined.

Lemma open_then_save_writes_back_witness :
  str_truthy "token.yaml" = true
  /\ @read_text sample_reader "token.yaml" = Ret "QUALTRICS_APITOKEN: abc"
  /\ gui_bind YAMLEditorFile.open_file
       (fun _ => core (YAMLEditor.save_file 1))
       (mkEditor EmptyString None "YAML Editor")
     = Some (mkGuiRun (Ret tt)
               (opened "YAML Editor - " "token.yaml" "QUALTRICS_APITOKEN: abc")
               [OpenFileDialog "Open YAML File";
                Core (FileOpenRead "token.yaml");
                Core (SetPlainText "QUALTRICS_APITOKEN: abc");
                Core (FileWrite "token.yaml" "QUALTRICS_APITOKEN: abc")]).
Proof.
  split; [reflexivity|]. split; [reflexivity|].
  destruct (open_then_save_writes_back (Dialog := sample_open_dialog)
              (Disk := sample_reader) (Widget := sample_widget)
              (Host := sample_disk) 0
              (mkEditor EmptyString None "YAML Editor")
              "QUALTRICS_APITOKEN: abc" eq_refl eq_refl) as [[Hy _] _].
  exact Hy.
Defined.

(** New, then Save with [notes] typed in the dialog. *)
Example new_then_save_notes :
  gui_writes
    (match gui_bind YAMLEditorFile.new_file
             (fun _ => core (YAMLEditor.save_file 3))
             (mkEditor "a: 1" (Some "old.yaml") "YAML Editor - old.yaml")
     with Some r => gui_trace r | None => [] end)
  = [("notes.yaml", EmptyString)].
Proof. reflexivity. Qed.

Lemma save_keeps_buffer_witness :
  YAMLEditor.save_file 1 (mkEditor "a: 1" (Some "old.yaml") "YAML Editor")
  = Some (mkRun (Ret tt) (mkEditor "a: 1" (Some "old.yaml") "YAML Editor")
            [FileWrite "old.yaml" "a: 1"])
  /\ outcome (mkRun (St := Editor) (Ret tt)
               (mkEditor "a: 1" (Some "old.yaml") "YAML Editor")
               [FileWrite "old.yaml" "a: 1"]) = Ret tt
  /\ text_edit (mkEditor "a: 1" (Some "old.yaml") "YAML Editor") = "a: 1".
Proof.
  split; [reflexivity|].
  apply (save_keeps_buffer (Host := sample_disk) (Save := sample_dialog) 1
           (mkEditor "a: 1" (Some "old.yaml") "YAML Editor")).
  left. reflexivity.
Defined.

Lemma format_yaml_no_file_access_witness :
  YAMLEditor.format_yaml (mkEditor "a: 1" (Some "old.yaml") "YAML Editor")
  = Some (mkRun (Ret tt) (mkEditor "a: 1" (Some "old.yaml") "YAML Editor")
            [SetPlainText "a: 1"])
  /\ forallb (fun ev => negb (is_file_event ev)) [SetPlainText "a: 1"] = true
  /\ Some "old.yaml" = Some "old.yaml"
  /\ "YAML Editor" = "YAML Editor".
Proof.
  split; [reflexivity|].
  apply (format_yaml_no_file_access (Lib := sample_yaml)
           (mkEditor "a: 1" (Some "old.yaml") "YAML Editor")
           (mkRun (Ret tt) (mkEditor "a: 1" (Some "old.yaml") "YAML Editor")
              [SetPlainText "a: 1"])).
  left. reflexivity.
Defined.

(** A buffer that is formatted, and one that is not. *)
Lemma format_yaml_all_or_nothing_witness :
  (YAMLEditor.format_yaml (Widget := sample_widget)
     (mkEditor "a: 1" (Some "old.yaml") "YAML Editor")
   = Some (mkRun (Ret tt) (mkEditor "a: 1" (Some "old.yaml") "YAML Editor")
             [SetPlainText "a: 1"])
   /\ exists t,
        round_trip "a: 1" = Ret t
        /\ result_of_trace [SetPlainText "a: 1"] = Formatted t)
  /\ (EditorWindow.format_yaml (Widget := sample_widget)
        (mkEditor "key: [unclosed" None "YAML Editor")
      = Some (mkRun (Ret tt) (mkEditor "key: [unclosed" None "YAML Editor")
                [MsgCritical "YAML Formatting Error"
                   (error_text_EditorWindow
                      (YAMLError
                         "while parsing a flow sequence, expected ',' or ']'"))])
      /\ forall t,
           result_of_trace
             [MsgCritical "YAML Formatting Error"
                (error_text_EditorWindow
                   (YAMLError
                      "while parsing a flow sequence, expected ',' or ']'"))]
           <> Formatted t).
Proof.
  split; (split; [reflexivity|]).
  - destruct (format_yaml_all_or_nothing (Lib := sample_yaml)
                (Widget := sample_widget)
                (mkEditor "a: 1" (Some "old.yaml") "YAML Editor")
                (mkRun (Ret tt)
                   (mkEditor "a: 1" (Some "old.yaml") "YAML Editor")
                   [SetPlainText "a: 1"]) (or_introl eq_refl))
      as [(t & Hrt & Hres & _) | (_ & Hno & _)].
    + exists t. split; [exact Hrt | exact Hres].
    + destruct (Hno "a: 1"). left. reflexivity.
  - destruct (format_yaml_all_or_nothing (Lib := sample_yaml)
                (Widget := sample_widget)
                (mkEditor "key: [unclosed" None "YAML Editor")
                (mkRun (Ret tt)
                   (mkEditor "key: [unclosed" None "YAML Editor")
                   [MsgCritical "YAML Formatting Error"
                      (error_text_EditorWindow
                         (YAMLError
                            "while parsing a flow sequence, expected ',' or ']'"))])
                (or_intror eq_refl))
      as [(t & _ & _ & Htr & _) | (_ & _ & Hnot)].
    + discriminate Htr.
    + exact Hnot.
Defined.

(** A buffer without carriage returns, formatted on two widgets. *)
Lemma format_yaml_variants_agree_witness :
  exists r1 r2,
    YAMLEditor.format_yaml (Widget := sample_widget)
      (mkEditor "a: 1" None "YAML Editor") = Some r1
    /\ EditorWindow.format_yaml (Widget := line_widget)
         (mkEditor "a: 1" None "YAML Editor") = Some r2
    /\ outcome r1 = outcome r2
    /\ final r1 = final r2.
Proof.
  destruct (format_yaml_variants_agree (Lib := sample_yaml)
              sample_widget line_widget
              (mkEditor "a: 1" None "YAML Editor"))
    as (r1 & r2 & H1 & H2 & Ho & _ & _ & _ & Hfinal).
  exists r1, r2. split; [exact H1|]. split; [exact H2|].
  split; [exact Ho|]. apply Hfinal.
  intros t Ht. injection Ht as <-. reflexivity.
Defined.

Lemma sample_store_laws : @store_laws sample_store.
Proof.
  split.
  - intros s k v d. cbn. now rewrite String.eqb_refl.
  - intros s k k' v d Hk. cbn.
    destruct (String.eqb_spec k' k) as [->|_]; [contradiction | reflexivity].
Defined.

Lemma launcher_buttons_follow_paths_witness :
  buttons_follow_paths sample_launcher
  /\ launcher_step (Dialog := missing_open_dialog) sample_launcher
       (mkGuiRun (Ret tt)
          (mkLauncher "missing.yaml" true "config.yaml" true []
             [("project_config_path", "config.yaml");
              ("qualtrics_token_path", "missing.yaml")])
          [OpenFileDialog "Select Token File"])
  /\ buttons_follow_paths
       (mkLauncher (Store := sample_store) "missing.yaml" true "config.yaml"
          true []
          [("project_config_path", "config.yaml");
           ("qualtrics_token_path", "missing.yaml")]).
Proof.
  assert (Hinv : buttons_follow_paths sample_launcher) by (split; reflexivity).
  assert (Hstep : launcher_step (Disk := sample_reader)
                    (Files := sample_config_host)
                    (Dialog := missing_open_dialog) sample_launcher
                    (mkGuiRun (Ret tt)
                       (mkLauncher "missing.yaml" true "config.yaml" true []
                          [("project_config_path", "config.yaml");
                           ("qualtrics_token_path", "missing.yaml")])
                       [OpenFileDialog "Select Token File"]))
    by (right; right; right; left; reflexivity).
  split; [exact Hinv|]. split; [exact Hstep|].
  destruct (launcher_buttons_follow_paths (Store := sample_store)
              (Disk := sample_reader) (Files := sample_config_host)
              (Dialog := missing_open_dialog)) as [_ Hkeep].
  exact (Hkeep _ _ Hinv Hstep).
Defined.

Lemma launcher_keeps_windows_witness :
  exists r,
    launcher_step (Dialog := sample_open_dialog) sample_launcher r
    /\ gui_outcome r = Ret tt
    /\ exists added,
         editor_windows (gui_final r)
         = (editor_windows sample_launcher ++ added)%list
         /\ (List.length added <= 1)%nat.
Proof.
  assert (Hstep : launcher_step (Disk := sample_reader)
                    (Files := sample_config_host)
                    (Dialog := sample_open_dialog) sample_launcher
                    (mkGuiRun (Ret tt)
                       (mkLauncher "token.yaml" true "config.yaml" true
                          [opened "Editor - " "token.yaml"
                             "QUALTRICS_APITOKEN: abc"] [])
                       [Core (FileOpenRead "token.yaml");
                        Core (SetPlainText "QUALTRICS_APITOKEN: abc")]))
    by (do 5 right; left; reflexivity).
  eexists. split; [exact Hstep|].
  exact (launcher_keeps_windows sample_launcher _ Hstep).
Defined.

Lemma settings_round_trip_witness :
  exists r r',
    LauncherWindow.save_settings sample_launcher = Some r
    /\ LauncherWindow.init (settings (gui_final r)) empty_launcher = Some r'
    /\ token_file_path_edit (gui_final r') = "token.yaml"
    /\ project_config_path_edit (gui_final r') = "config.yaml"
    /\ editor_windows (gui_final r') = [].
Proof.
  eexists.
  destruct (settings_round_trip (Store := sample_store) sample_launcher
              empty_launcher _ sample_store_laws (or_introl eq_refl))
    as (r' & Hr').
  exists r'. split; [reflexivity | exact Hr'].
Defined.

Lemma browse_is_persisted_witness :
  exists r r',
    LauncherWindow.browse_token_file (Dialog := sample_open_dialog)
      empty_launcher = Some r
    /\ LauncherWindow.init (settings (gui_final r)) empty_launcher = Some r'
    /\ token_file_path_edit (gui_final r') = "token.yaml"
    /\ project_config_path_edit (gui_final r') = EmptyString.
Proof.
  destruct (browse_is_persisted (Store := sample_store)
              (Dialog := sample_open_dialog) empty_launcher empty_launcher
              sample_store_laws eq_refl) as [Htoken _].
  exact Htoken.
Defined.

Lemma enabled_edit_opens_window_witness :
  buttons_follow_paths sample_launcher
  /\ edit_token_btn sample_launcher = true
  /\ LauncherWindow.edit_token_file (Disk := sample_reader)
       (Dialog := sample_open_dialog) sample_launcher
     = Some (mkGuiRun (Ret tt)
               (mkLauncher "token.yaml" true "config.yaml" true
                  [opened "Editor - " "token.yaml" "QUALTRICS_APITOKEN: abc"]
                  [])
               [Core (FileOpenRead "token.yaml");
                Core (SetPlainText "QUALTRICS_APITOKEN: abc")]).
Proof.
  assert (Hinv : buttons_follow_paths sample_launcher) by (split; reflexivity).
  split; [exact Hinv|]. split; [reflexivity|].
  destruct (enabled_edit_opens_window (Disk := sample_reader)
              (Dialog := sample_open_dialog) sample_launcher Hinv)
    as [Htoken _].
  exact (Htoken eq_refl).
Defined.

(** Both sample files chosen: the check passes and says so. *)
Example run_check_connection_passes :
  LauncherWindow.run_check_connection (Files := sample_config_host)
    sample_launcher
  = Some (mkGuiRun (Ret tt) sample_launcher
            (map Core (check_trace "token.yaml" "config.yaml")
             ++ [Core (MsgInformation "Connection Success" msg_success)])%list).
Proof. reflexivity. Qed.

Lemma first_start_check_witness :
  @value sample_store [] "qualtrics_token_path" EmptyString = EmptyString
  /\ @value sample_store [] "project_config_path" EmptyString = EmptyString
  /\ gui_bind (LauncherWindow.init (Store := sample_store) [])
       (fun _ => LauncherWindow.run_check_connection
                   (Files := sample_config_host))
       empty_launcher
     = Some (mkGuiRun (Ret tt) empty_launcher
               [MsgWarning "Connection Failed" msg_token_not_found]).
Proof.
  split; [reflexivity|]. split; [reflexivity|].
  apply (first_start_check (Store := sample_store)
           (Files := sample_config_host) [] empty_launcher); reflexivity.
Defined.

End FurtherSamples.
